(** * EduConnect: the allocation core of the donation platform

    A shallow embedding of the route handlers and schema hooks that decide
    how donations are claimed, payments processed, pending requests ordered,
    unique ids generated and donors promoted to regular donors.

    Sources embedded here:
    - [src/models/Request.js]   (request, payment and donation schemas)
    - [src/models/User.js]      (user schema and its pre-save hook)
    - [src/routes/student.js]   (POST /student/claim-donation/:donationId)
    - [src/routes/admin.js]     (POST /admin/process-payment/:paymentId,
                                 GET /donor/dashboard, GET /donor/requests,
                                 POST /donor/donate)

    Conventions.  A MongoDB collection that is only read and written by
    [_id] is a [gmap] from ids to documents; the request collection, which is
    searched with [findOne] and listed with [sort], is a list in natural
    (insertion) order.  Dates are milliseconds since the epoch, in [Z].
    JavaScript numbers that hold money are exact rationals, in [Q].  A
    handler is a function from the database to a response and a database;
    an [await] on a database call is a point where another handler may run,
    so the claim handler is also given as a machine with one step per
    database call. *)

From Stdlib Require Import ZArith QArith Qround String List Permutation Sorted Lia.
From stdpp Require Import base option list gmap strings pretty.

Local Open Scope string_scope.
Local Open Scope Z_scope.

Abbreviation ObjectId := nat.
Abbreviation Date := Z.

(** ** HTTP responses *)

Inductive Response :=
| Redirect (code : nat) (location : string)   (* res.status(code).redirect(location) *)
| Render (code : nat) (view : string)         (* res.status(code).render(view, ...) *)
| NoResponse.                                 (* the handler returns without answering *)

Global Instance Response_eq_dec : EqDecision Response.
Proof. solve_decision. Defined.

(** ** Schemas *)

(** [donationSchema], src/models/Request.js lines 125-172. *)
Module Donation.
Inductive Status := available | reserved | donated | expired.

Global Instance Status_eq_dec : EqDecision Status.
Proof. solve_decision. Defined.

Record t := mk {
  donor : ObjectId;
  type : string;
  description : string;
  value : Q;
  status : Status;
  recipient : option ObjectId;
  donatedAt : option Date;
  expiresAt : Date;
  createdAt : Date;
  updatedAt : Date
}.

(** The [enum] of the [type] path. *)
Definition type_enum : list string :=
  ["laptop"; "books"; "fees"; "bag"; "shoes"; "notes"; "money"; "other"].

(** Default of [expiresAt]: thirty days after creation. *)
Definition default_expiresAt (now : Date) : Date :=
  now + 30 * 24 * 60 * 60 * 1000.

(** The assignments of the claim handler on its local document
    (student.js lines 123-125) followed by the pre-save hook that stamps
    [updatedAt] (Request.js lines 175-178). *)
Definition claim (student : ObjectId) (now : Date) (d : t) : t :=
  {| donor := donor d; type := type d; description := description d;
     value := value d;
     status := reserved;
     recipient := Some student;
     donatedAt := Some now;
     expiresAt := expiresAt d; createdAt := createdAt d;
     updatedAt := now |}.

(** [save()] of a loaded document sends only the paths the handler
    assigned: [status], [recipient], [donatedAt] and [updatedAt] of the
    local copy overwrite those of the stored document. *)
Definition write_claim (loc stored : t) : t :=
  {| donor := donor stored; type := type stored;
     description := description stored; value := value stored;
     status := status loc;
     recipient := recipient loc;
     donatedAt := donatedAt loc;
     expiresAt := expiresAt stored; createdAt := createdAt stored;
     updatedAt := updatedAt loc |}.

(** The same document with another expiry date. *)
Definition with_expiresAt (e : Date) (d : t) : t :=
  {| donor := donor d; type := type d; description := description d;
     value := value d; status := status d; recipient := recipient d;
     donatedAt := donatedAt d; expiresAt := e; createdAt := createdAt d;
     updatedAt := updatedAt d |}.
End Donation.

(** [requestSchema], src/models/Request.js lines 4-58. *)
Module Request.
Inductive Status := pending | in_progress | fulfilled | cancelled.

Global Instance Status_eq_dec : EqDecision Status.
Proof. solve_decision. Defined.

Inductive Urgency := low | medium | high | critical.

Global Instance Urgency_eq_dec : EqDecision Urgency.
Proof. solve_decision. Defined.

(** The string stored for each urgency level. *)
Definition urgency_string (u : Urgency) : string :=
  match u with
  | low => "low" | medium => "medium" | high => "high" | critical => "critical"
  end.

Record t := mk {
  student : ObjectId;
  type : string;
  description : string;
  urgencyLevel : Urgency;
  amount : Q;
  status : Status;
  fulfilledBy : option ObjectId;
  fulfilledAt : option Date;
  priority : Z;
  createdAt : Date;
  updatedAt : Date
}.

(** The [enum] of the [type] path: it has no ["money"]. *)
Definition type_enum : list string :=
  ["laptop"; "books"; "fees"; "bag"; "shoes"; "notes"; "other"].

(** Validation run by [save()] on a new document: [type] is required and
    in its enum, [description] is required (a required string may not be
    empty) and [amount] is at least 0.  [student] is an id and the enum
    paths [urgencyLevel] and [status] are valid by their types. *)
Definition validate (r : t) : bool :=
  bool_decide (type r ∈ type_enum)
  && negb (bool_decide (description r = ""))
  && Qle_bool 0 (amount r).

(** The assignments of the claim handler on a pending request it found
    (student.js lines 143-145), with the pre-save stamp of [updatedAt]. *)
Definition fulfil (by_donor : ObjectId) (now : Date) (r : t) : t :=
  {| student := student r; type := type r; description := description r;
     urgencyLevel := urgencyLevel r; amount := amount r;
     status := fulfilled;
     fulfilledBy := Some by_donor;
     fulfilledAt := Some now;
     priority := priority r; createdAt := createdAt r;
     updatedAt := now |}.

(** [save()] of a loaded request sends the assigned paths only. *)
Definition write_fulfil (loc stored : t) : t :=
  {| student := student stored; type := type stored;
     description := description stored;
     urgencyLevel := urgencyLevel stored; amount := amount stored;
     status := status loc;
     fulfilledBy := fulfilledBy loc;
     fulfilledAt := fulfilledAt loc;
     priority := priority stored; createdAt := createdAt stored;
     updatedAt := updatedAt loc |}.

(** [new Request({student, type, description, status: 'fulfilled',
    fulfilledBy, fulfilledAt})] (student.js lines 149-156) with the schema
    defaults for the paths left out. *)
Definition new_fulfilled (st : ObjectId) (ty descr : string)
    (by_donor : ObjectId) (now : Date) : t :=
  {| student := st; type := ty; description := descr;
     urgencyLevel := medium; amount := 0%Q;
     status := fulfilled;
     fulfilledBy := Some by_donor;
     fulfilledAt := Some now;
     priority := 0; createdAt := now; updatedAt := now |}.
End Request.

(** [paymentSchema], src/models/Request.js lines 64-119. *)
Module Payment.
Inductive Status := pending | approved | distributed | cancelled.

Global Instance Status_eq_dec : EqDecision Status.
Proof. solve_decision. Defined.

Inductive Method := full | split.

Global Instance Method_eq_dec : EqDecision Method.
Proof. solve_decision. Defined.

(** One entry of [splitAmong]. *)
Record Share := mkShare { share_student : ObjectId; share_amount : Q }.

Record t := mk {
  donor : ObjectId;
  recipient : option ObjectId;
  amount : Q;
  status : Status;
  processedBy : option ObjectId;
  processedAt : option Date;
  distributionMethod : Method;
  splitAmong : list Share;
  createdAt : Date;
  updatedAt : Date
}.

(** Sum of the amounts of a split list. *)
Definition split_total (l : list Share) : Q :=
  fold_right (fun s acc => (share_amount s + acc)%Q) 0%Q l.
End Payment.

(** [userSchema], src/models/User.js lines 4-58. *)
Module User.
Inductive Role := student | donor | admin.

Global Instance Role_eq_dec : EqDecision Role.
Proof. solve_decision. Defined.

Record DonorInfo := mkDonorInfo {
  totalDonations : Z;
  isRegularDonor : bool
}.

Record t := mk {
  username : string;
  role : Role;
  uniqueId : option string;
  donorInfo : DonorInfo;
  isActive : bool;
  lastLogin : option Date
}.
End User.

(** ** The database *)

Record DB := mkDB {
  donations : gmap nat Donation.t;
  requests : list Request.t;
  payments : gmap nat Payment.t;
  users : gmap nat User.t
}.

Definition set_donations (f : gmap nat Donation.t -> gmap nat Donation.t) (db : DB) : DB :=
  {| donations := f (donations db); requests := requests db;
     payments := payments db; users := users db |}.

Definition set_requests (f : list Request.t -> list Request.t) (db : DB) : DB :=
  {| donations := donations db; requests := f (requests db);
     payments := payments db; users := users db |}.

Definition set_payments (f : gmap nat Payment.t -> gmap nat Payment.t) (db : DB) : DB :=
  {| donations := donations db; requests := requests db;
     payments := f (payments db); users := users db |}.

Definition set_users (f : gmap nat User.t -> gmap nat User.t) (db : DB) : DB :=
  {| donations := donations db; requests := requests db;
     payments := payments db; users := f (users db) |}.

(** ** POST /student/claim-donation/:donationId

    src/routes/student.js lines 110-180.  The handler awaits four database
    calls; [step] runs the handler from one of them to the next. *)
Module Claim.

Definition unavailable : Response :=
  Redirect 400 "/student/dashboard?error=Donation is no longer available".

Definition claimed_ok : Response :=
  Redirect 302
    "/student/dashboard?success=Donation claimed successfully! The donor has been notified.".

(** The [catch] block, lines 176-179. *)
Definition failed : Response :=
  Redirect 500 "/student/dashboard?error=Failed to claim donation".

(** Where the handler is suspended, with its local variables. *)
Inductive Pc :=
| FindDonation                                   (* line 116: Donation.findById *)
| SaveDonation (donation : Donation.t)           (* line 126: donation.save() *)
| FindRequest (donation : Donation.t)            (* line 136: Request.findOne *)
| SaveExisting (donation : Donation.t) (i : nat) (existingRequest : Request.t)
                                                 (* line 146: existingRequest.save() *)
| SaveNew (donation : Donation.t) (newRequest : Request.t)
                                                 (* line 157: newRequest.save() *)
| Done (res : Response).

(** The filter of [Request.findOne], lines 136-140. *)
Definition wanted (student : ObjectId) (ty : string) (r : Request.t) : Prop :=
  Request.student r = student /\ Request.type r = ty
  /\ Request.status r = Request.pending.

Global Instance wanted_dec student ty r : Decision (wanted student ty r).
Proof. unfold wanted. apply _. Defined.

Definition step (donationId student : ObjectId) (now : Date)
    (db : DB) (pc : Pc) : DB * Pc :=
  match pc with
  | FindDonation =>
      match donations db !! donationId with
      | None => (db, Done unavailable)
      | Some donation =>
          if decide (Donation.status donation = Donation.available)
          then (db, SaveDonation (Donation.claim student now donation))
          else (db, Done unavailable)
      end
  | SaveDonation donation =>
      match donations db !! donationId with
      | None => (db, Done failed)
      | Some _ =>
          (set_donations (alter (Donation.write_claim donation) donationId) db,
           FindRequest donation)
      end
  | FindRequest donation =>
      match list_find (wanted student (Donation.type donation)) (requests db) with
      | Some (i, existingRequest) =>
          (db, SaveExisting donation i
                 (Request.fulfil (Donation.donor donation) now existingRequest))
      | None =>
          let newRequest :=
            Request.new_fulfilled student (Donation.type donation)
              (String.append "Claimed: " (Donation.description donation))
              (Donation.donor donation) now in
          if Request.validate newRequest
          then (db, SaveNew donation newRequest)
          else (db, Done failed)
      end
  | SaveExisting donation i existingRequest =>
      match requests db !! i with
      | None => (db, Done failed)
      | Some _ =>
          (set_requests (alter (Request.write_fulfil existingRequest) i) db,
           Done claimed_ok)
      end
  | SaveNew donation newRequest =>
      (set_requests (fun l => (l ++ [newRequest])%list) db, Done claimed_ok)
  | Done res => (db, Done res)
  end.

Fixpoint run (n : nat) (donationId student : ObjectId) (now : Date)
    (db : DB) (pc : Pc) : DB * Pc :=
  match n with
  | O => (db, pc)
  | S k =>
      let '(db', pc') := step donationId student now db pc in
      run k donationId student now db' pc'
  end.

Definition response (pc : Pc) : Response :=
  match pc with Done res => res | _ => NoResponse end.

(** The handler run alone, from its first line to its answer: four
    database calls at most, with the calls of [new Date()] of the run
    reading the same instant [now]. *)
Definition claim_donation (db : DB) (donationId student : ObjectId)
    (now : Date) : Response * DB :=
  let '(db', pc) := run 4 donationId student now db FindDonation in
  (response pc, db').

(** The database once [donation.save()] of line 126 has gone through. *)
Definition reserve (donationId student : ObjectId) (now : Date)
    (d : Donation.t) (db : DB) : DB :=
  set_donations
    (alter (Donation.write_claim (Donation.claim student now d)) donationId) db.

(** *** Handlers in flight together *)

Record Task := mkTask {
  donationId : ObjectId;
  claimant : ObjectId;
  pc : Pc
}.

Definition start (donationId student : ObjectId) : Task :=
  mkTask donationId student FindDonation.

(** The event loop resumes task [i] at time [now]; the other tasks stay
    suspended. *)
Definition resume (i : nat) (now : Date) (s : DB * list Task) : DB * list Task :=
  let '(db, tasks) := s in
  match tasks !! i with
  | None => s
  | Some t =>
      let '(db', pc') := step (donationId t) (claimant t) now db (pc t) in
      (db', <[i := mkTask (donationId t) (claimant t) pc']> tasks)
  end.

Definition run_schedule (sched : list (nat * Date)) (s : DB * list Task)
    : DB * list Task :=
  fold_left (fun s ev => resume (fst ev) (snd ev) s) sched s.

Definition answered (t : Task) : option Response :=
  match pc t with Done res => Some res | _ => None end.

End Claim.

(** ** POST /admin/process-payment/:paymentId

    src/routes/admin.js lines 183-231. *)
Module ProcessPayment.

(** [req.body.splitAmong], a string handed to [JSON.parse]: absent or
    empty (falsy), present but not the JSON of a split list ([JSON.parse]
    or the cast to the schema throws), or the JSON of the list [l]. *)
Inductive SplitField :=
| SplitAbsent
| SplitMalformed
| SplitParsed (l : list Payment.Share).

Record Body := mkBody {
  action : string;
  recipient : option ObjectId;     (* None: absent or empty *)
  distributionMethod : string;
  splitAmong : SplitField
}.

Definition not_found : Response :=
  Redirect 404 "/admin/payments?error=Payment not found".

Definition approved_ok : Response :=
  Redirect 302 "/admin/payments?success=Payment approved and processed successfully".

Definition rejected_ok : Response :=
  Redirect 302 "/admin/payments?success=Payment rejected".

Definition failed : Response :=
  Redirect 500 "/admin/payments?error=Failed to process payment".

(** Lines 195-197 and 219-221: the new status with who processed the
    payment and when; [updatedAt] is stamped by the pre-save hook. *)
Definition processed (s : Payment.Status) (admin : ObjectId) (now : Date)
    (p : Payment.t) : Payment.t :=
  {| Payment.donor := Payment.donor p;
     Payment.recipient := Payment.recipient p;
     Payment.amount := Payment.amount p;
     Payment.status := s;
     Payment.processedBy := Some admin;
     Payment.processedAt := Some now;
     Payment.distributionMethod := Payment.distributionMethod p;
     Payment.splitAmong := Payment.splitAmong p;
     Payment.createdAt := Payment.createdAt p;
     Payment.updatedAt := now |}.

(** Lines 200-201. *)
Definition to_full (r : ObjectId) (p : Payment.t) : Payment.t :=
  {| Payment.donor := Payment.donor p;
     Payment.recipient := Some r;
     Payment.amount := Payment.amount p;
     Payment.status := Payment.status p;
     Payment.processedBy := Payment.processedBy p;
     Payment.processedAt := Payment.processedAt p;
     Payment.distributionMethod := Payment.full;
     Payment.splitAmong := Payment.splitAmong p;
     Payment.createdAt := Payment.createdAt p;
     Payment.updatedAt := Payment.updatedAt p |}.

(** Lines 203-204. *)
Definition to_split (l : list Payment.Share) (p : Payment.t) : Payment.t :=
  {| Payment.donor := Payment.donor p;
     Payment.recipient := Payment.recipient p;
     Payment.amount := Payment.amount p;
     Payment.status := Payment.status p;
     Payment.processedBy := Payment.processedBy p;
     Payment.processedAt := Payment.processedAt p;
     Payment.distributionMethod := Payment.split;
     Payment.splitAmong := l;
     Payment.createdAt := Payment.createdAt p;
     Payment.updatedAt := Payment.updatedAt p |}.

Definition save (paymentId : ObjectId) (p : Payment.t) (db : DB) : DB :=
  set_payments (insert paymentId p) db.

Definition process_payment (db : DB) (paymentId admin : ObjectId)
    (body : Body) (now : Date) : Response * DB :=
  match payments db !! paymentId with
  | None => (not_found, db)
  | Some payment =>
      if decide (action body = "approve") then
        let payment := processed Payment.approved admin now payment in
        match decide (distributionMethod body = "full"), recipient body with
        | left _, Some r =>
            (approved_ok, save paymentId (to_full r payment) db)
        | _, _ =>
            if decide (distributionMethod body = "split") then
              match splitAmong body with
              | SplitAbsent => (approved_ok, save paymentId payment db)
              | SplitMalformed => (failed, db)
              | SplitParsed l =>
                  (approved_ok, save paymentId (to_split l payment) db)
              end
            else (approved_ok, save paymentId payment db)
        end
      else if decide (action body = "reject") then
        (rejected_ok,
         save paymentId (processed Payment.cancelled admin now payment) db)
      else (NoResponse, db)
  end.

(** The condition of the specification on a split list, which the handler
    never evaluates: the amounts add up to the amount of the payment. *)
Definition sums_to_amount (l : list Payment.Share) (p : Payment.t) : Prop :=
  (Payment.split_total l == Payment.amount p)%Q.

End ProcessPayment.

(** ** Sorted views of the pending requests

    [Request.find(query).sort(sortOptions)], src/routes/admin.js lines
    344-346 (GET /donor/dashboard) and 507-526 (GET /donor/requests).  The
    sort is the database's: documents are compared path by path in the order
    of [sortOptions], each path ascending (1) or descending (-1); dates and
    numbers compare by value and strings by their characters.  It is given
    here as a stable insertion sort. *)
Module Listing.

Inductive Path := createdAt | urgencyLevel | amount.
Inductive Direction := Asc | Desc.

Definition compare_path (p : Path) (a b : Request.t) : comparison :=
  match p with
  | createdAt => Z.compare (Request.createdAt a) (Request.createdAt b)
  | urgencyLevel =>
      String.compare (Request.urgency_string (Request.urgencyLevel a))
                     (Request.urgency_string (Request.urgencyLevel b))
  | amount => Qcompare (Request.amount a) (Request.amount b)
  end.

Definition directed (d : Direction) (c : comparison) : comparison :=
  match d with Asc => c | Desc => CompOpp c end.

Fixpoint compare_by (o : list (Path * Direction)) (a b : Request.t) : comparison :=
  match o with
  | [] => Eq
  | (p, d) :: o' =>
      match directed d (compare_path p a b) with
      | Eq => compare_by o' a b
      | c => c
      end
  end.

(** [a] may stand before [b]. *)
Definition precedes (o : list (Path * Direction)) (a b : Request.t) : bool :=
  match compare_by o a b with Gt => false | _ => true end.

Fixpoint insert (o : list (Path * Direction)) (x : Request.t)
    (l : list Request.t) : list Request.t :=
  match l with
  | [] => [x]
  | y :: l' => if precedes o x y then x :: l else y :: insert o x l'
  end.

Fixpoint sort (o : list (Path * Direction)) (l : list Request.t) : list Request.t :=
  match l with
  | [] => []
  | x :: l' => insert o x (sort o l')
  end.

(** [{ createdAt: 1 }], [{ urgencyLevel: -1, createdAt: 1 }] and
    [{ amount: -1, createdAt: 1 }]. *)
Definition by_created : list (Path * Direction) := [(createdAt, Asc)].
Definition by_urgency : list (Path * Direction) :=
  [(urgencyLevel, Desc); (createdAt, Asc)].
Definition by_amount : list (Path * Direction) :=
  [(amount, Desc); (createdAt, Asc)].

(** Lines 516-522. *)
Definition sortOptions (sort : option string) : list (Path * Direction) :=
  if decide (sort = Some "urgency") then by_urgency
  else if decide (sort = Some "amount") then by_amount
  else by_created.

(** A query parameter that is present and not empty. *)
Definition given (param : option string) : option string :=
  match param with
  | Some s => if decide (s = "") then None else Some s
  | None => None
  end.

(** Lines 511-514: [{ status: 'pending' }] narrowed by the parameters. *)
Definition query (type urgency : option string) (r : Request.t) : bool :=
  bool_decide (Request.status r = Request.pending)
  && match given type with
     | Some ty => bool_decide (Request.type r = ty)
     | None => true
     end
  && match given urgency with
     | Some u => bool_decide (Request.urgency_string (Request.urgencyLevel r) = u)
     | None => true
     end.

(** GET /donor/requests: the requests handed to the view. *)
Definition donor_requests (db : DB) (type urgency sort : option string)
    : list Request.t :=
  Listing.sort (sortOptions sort) (List.filter (query type urgency) (requests db)).

(** GET /donor/dashboard, lines 344-346: [studentRequests]. *)
Definition studentRequests (db : DB) : list Request.t :=
  Listing.sort by_urgency (List.filter (query None None) (requests db)).

(** A comparison that is antisymmetric, respects its own equality and
    is transitive on [Lt]. *)
Definition orders (cmp : Request.t -> Request.t -> comparison) : Prop :=
  (forall a b, cmp b a = CompOpp (cmp a b))
  /\ (forall a b c, cmp a b = Eq -> cmp b c = cmp a c)
  /\ (forall a b c, cmp a b = Lt -> cmp b c = Lt -> cmp a c = Lt).

(** Every document of the list may stand before all those after it. *)
Definition ordered (o : list (Path * Direction)) : list Request.t -> Prop :=
  StronglySorted (fun a b => precedes o a b = true).

End Listing.

(** ** The unique four-digit id of students and donors

    The pre-save hook of [userSchema], src/models/User.js lines 61-85.  The
    password and e-mail paths take no part in it and are left out.
    [random k] is what the [k]-th call of [Math.random()] returns, a number
    in [0, 1) taken as an exact rational. *)
Module UniqueId.

(** [Math.floor(1000 + Math.random() * 9000)], line 73. *)
Definition draw (r : Q) : Z := Qfloor (1000 + r * 9000)%Q.

(** [.toString()] of the number drawn. *)
Definition candidate (r : Q) : string := pretty (draw r).

(** [findOne({ uniqueId: id })] finds a user, line 74. *)
Definition taken (users : gmap nat User.t) (id : string) : Prop :=
  map_Exists (fun _ u => User.uniqueId u = Some id) users.

Global Instance taken_dec users id : Decision (taken users id).
Proof. unfold taken. apply _. Defined.

(** The loop of lines 72-80, [left] iterations before [attempts]
    reaches 10.  It returns the id assigned, if any, and the final value
    of [attempts]. *)
Fixpoint loop (users : gmap nat User.t) (random : nat -> Q)
    (left attempts : nat) : option string * nat :=
  match left with
  | O => (None, attempts)
  | S left' =>
      let id := candidate (random attempts) in
      if decide (taken users id)
      then loop users random left' (S attempts)
      else (Some id, S attempts)
  end.

Definition generate (users : gmap nat User.t) (random : nat -> Q)
    : option string * nat :=
  loop users random 10 0.

Definition exhausted : string := "Unable to generate unique ID. Please try again.".

Definition with_uniqueId (id : string) (u : User.t) : User.t :=
  {| User.username := User.username u; User.role := User.role u;
     User.uniqueId := Some id;
     User.donorInfo := User.donorInfo u; User.isActive := User.isActive u;
     User.lastLogin := User.lastLogin u |}.

(** [!this.uniqueId]: no id, or the empty string. *)
Definition lacks_id (u : User.t) : bool :=
  match User.uniqueId u with
  | None => true
  | Some s => bool_decide (s = "")
  end.

(** The hook: the document to store, or the error handed to [next]. *)
Definition pre_save (users : gmap nat User.t) (random : nat -> Q)
    (isNew : bool) (u : User.t) : string + User.t :=
  if isNew
     && (bool_decide (User.role u = User.student)
         || bool_decide (User.role u = User.donor))
     && lacks_id u
  then
    match fst (generate users random) with
    | Some id => inr (with_uniqueId id u)
    | None => inl exhausted
    end
  else inr u.

(** [new User(userData).save()]: the hook, then the insertion under the
    fresh [_id]. *)
Definition save_new (users : gmap nat User.t) (random : nat -> Q)
    (newId : ObjectId) (u : User.t) : string + gmap nat User.t :=
  match pre_save users random true u with
  | inl e => inl e
  | inr u' => inr (<[newId := u']> users)
  end.

End UniqueId.

(** ** Authentication middleware

    [authenticateToken] and [requireRole]; the token is taken as already
    decoded to the id of its user. *)
Module Auth.

Definition touch (now : Date) (u : User.t) : User.t :=
  {| User.username := User.username u; User.role := User.role u;
     User.uniqueId := User.uniqueId u;
     User.donorInfo := User.donorInfo u; User.isActive := User.isActive u;
     User.lastLogin := Some now |}.

Definition rejected : Response :=
  Redirect 401 "/auth/login?error=User not found or inactive".

Definition denied : Response := Render 403 "error".

(** [req.user] for the handler, with the login time stored. *)
Definition authenticateToken (db : DB) (userId : ObjectId) (now : Date)
    : option User.t * DB :=
  match users db !! userId with
  | None => (None, db)
  | Some user =>
      if User.isActive user
      then (Some (touch now user), set_users (alter (touch now) userId) db)
      else (None, db)
  end.

Definition requireRole (role : User.Role) (user : User.t) : bool :=
  bool_decide (User.role user = role).

End Auth.

(** ** Donor routes: GET /donor/dashboard and POST /donor/donate

    src/routes/admin.js lines 339-391 and 394-456. *)
Module Donor.

Definition myDonations (db : DB) (donor : ObjectId) : list Donation.t :=
  List.filter (fun d => bool_decide (Donation.donor d = donor))
    (map snd (map_to_list (donations db))).

Definition myPayments (db : DB) (donor : ObjectId) : list Payment.t :=
  List.filter (fun p => bool_decide (Payment.donor p = donor))
    (map snd (map_to_list (payments db))).

(** Lines 359-364. *)
Record Stats := mkStats {
  totalDonations : nat;
  activeDonations : nat;
  completedDonations : nat;
  totalPayments : Q
}.

Definition stats (db : DB) (donor : ObjectId) : Stats :=
  {| totalDonations := length (myDonations db donor);
     activeDonations :=
       length (List.filter
                 (fun d => bool_decide (Donation.status d = Donation.available))
                 (myDonations db donor));
     completedDonations :=
       length (List.filter
                 (fun d => bool_decide (Donation.status d = Donation.donated))
                 (myDonations db donor));
     totalPayments :=
       fold_left (fun sum p => (sum + Payment.amount p)%Q) (myPayments db donor) 0%Q |}.

(** Line 367. *)
Definition qualifies (s : Stats) : bool :=
  (5 <=? totalDonations s)%nat || Qle_bool 1000 (totalPayments s).

(** Line 368: [donor.donorInfo.isRegularDonor = true]. *)
Definition mark_regular (u : User.t) : User.t :=
  {| User.username := User.username u; User.role := User.role u;
     User.uniqueId := User.uniqueId u;
     User.donorInfo :=
       {| User.totalDonations := User.totalDonations (User.donorInfo u);
          User.isRegularDonor := true |};
     User.isActive := User.isActive u;
     User.lastLogin := User.lastLogin u |}.

(** Line 431: [req.user.donorInfo.totalDonations += 1]. *)
Definition count_donation (u : User.t) : User.t :=
  {| User.username := User.username u; User.role := User.role u;
     User.uniqueId := User.uniqueId u;
     User.donorInfo :=
       {| User.totalDonations := User.totalDonations (User.donorInfo u) + 1;
          User.isRegularDonor := User.isRegularDonor (User.donorInfo u) |};
     User.isActive := User.isActive u;
     User.lastLogin := User.lastLogin u |}.

Definition page : Response := Render 200 "donor/dashboard".

(** GET /donor/dashboard behind its two middlewares. *)
Definition dashboard (db : DB) (donorId : ObjectId) (now : Date) : Response * DB :=
  match Auth.authenticateToken db donorId now with
  | (None, db) => (Auth.rejected, db)
  | (Some donor, db) =>
      if Auth.requireRole User.donor donor then
        if qualifies (stats db donorId)
        then (page, set_users (alter mark_regular donorId) db)
        else (page, db)
      else (Auth.denied, db)
  end.

End Donor.

(** ** Writes to the user collection

    Every place where the routes and middleware of the server store a user
    document. *)
Module Users.

Inductive Write :=
| Touch (userId : ObjectId) (now : Date)
    (* authMiddleware: user.lastLogin = new Date(); routes/auth.js line 93 *)
| Create (newId : ObjectId) (u : User.t) (random : nat -> Q)
    (* routes/auth.js lines 57-64 (admin) and 164-180 (register) *)
| MarkRegular (userId : ObjectId)
    (* routes/admin.js lines 367-369 *)
| CountDonation (userId : ObjectId)
    (* routes/admin.js lines 431-432 *)
| SetUniqueId (userId : ObjectId) (id : string).
    (* reserveID: User.findByIdAndUpdate(userId, { uniqueId: id }) *)

Definition apply (w : Write) (users : gmap nat User.t) : gmap nat User.t :=
  match w with
  | Touch userId now => alter (Auth.touch now) userId users
  | Create newId u random =>
      match users !! newId with
      | Some _ => users          (* an _id is never reused *)
      | None =>
          match UniqueId.save_new users random newId u with
          | inl _ => users
          | inr users' => users'
          end
      end
  | MarkRegular userId => alter Donor.mark_regular userId users
  | CountDonation userId => alter Donor.count_donation userId users
  | SetUniqueId userId id => alter (UniqueId.with_uniqueId id) userId users
  end.


Definition regular (users : gmap nat User.t) (userId : ObjectId) : Prop :=
  exists u, users !! userId = Some u
            /\ User.isRegularDonor (User.donorInfo u) = true.

End Users.

(** ** Sample documents *)

Definition offer (ty : string) (expires : Date) : Donation.t :=
  {| Donation.donor := 7; Donation.type := ty;
     Donation.description := "Dell Inspiron 15"; Donation.value := 600%Q;
     Donation.status := Donation.available; Donation.recipient := None;
     Donation.donatedAt := None; Donation.expiresAt := expires;
     Donation.createdAt := 0; Donation.updatedAt := 0 |}.

Definition db_of_donation (d : Donation.t) : DB := mkDB {[ 1%nat := d ]} [] ∅ ∅.

(** Two claim handlers resumed in turn, one database call each. *)
Definition race : list (nat * Date) :=
  [(0%nat, 100); (1%nat, 101); (0%nat, 102); (1%nat, 103);
   (0%nat, 104); (1%nat, 105); (0%nat, 106); (1%nat, 107)].

Definition payment100 (s : Payment.Status) : Payment.t :=
  {| Payment.donor := 7; Payment.recipient := None; Payment.amount := 100%Q;
     Payment.status := s; Payment.processedBy := None; Payment.processedAt := None;
     Payment.distributionMethod := Payment.full; Payment.splitAmong := [];
     Payment.createdAt := 0; Payment.updatedAt := 0 |}.

Definition db_of_payment (p : Payment.t) : DB := mkDB ∅ [] {[ 1%nat := p ]} ∅.

Definition split_60_40 : list Payment.Share :=
  [Payment.mkShare 21 60%Q; Payment.mkShare 22 40%Q].

Definition split_60_50 : list Payment.Share :=
  [Payment.mkShare 21 60%Q; Payment.mkShare 22 50%Q].

Definition approve_split (l : list Payment.Share) : ProcessPayment.Body :=
  ProcessPayment.mkBody "approve" None "split" (ProcessPayment.SplitParsed l).

Definition reject : ProcessPayment.Body :=
  ProcessPayment.mkBody "reject" None "" ProcessPayment.SplitAbsent.

Definition req (student : ObjectId) (u : Request.Urgency) (created : Date) : Request.t :=
  {| Request.student := student; Request.type := "books";
     Request.description := "Textbooks"; Request.urgencyLevel := u;
     Request.amount := 0%Q; Request.status := Request.pending;
     Request.fulfilledBy := None; Request.fulfilledAt := None;
     Request.priority := created; Request.createdAt := created;
     Request.updatedAt := created |}.

Definition db_of_requests (l : list Request.t) : DB := mkDB ∅ l ∅ ∅.

(** [Math.random()] returning one half at every call. *)
Definition coin (k : nat) : Q := 1 # 2.

Definition donor7 : User.t :=
  {| User.username := "donor1"; User.role := User.donor;
     User.uniqueId := Some "4821";
     User.donorInfo := {| User.totalDonations := 0; User.isRegularDonor := false |};
     User.isActive := true; User.lastLogin := None |}.


(** * Further routes and utilities *)

(** ** The id utilities

    src/controllers/authController.js lines 215-430: [isValidID],
    [isIDAvailable], [generateUniqueID], [generateMultipleUniqueIDs] and
    [reserveID].  Database calls are taken to succeed, so the [catch]
    blocks that only log and rethrow are not reached. *)
Module IdUtil.

(** One character matched by [\d]. *)
Definition is_digit (c : Ascii.ascii) : bool :=
  (48 <=? Ascii.nat_of_ascii c)%nat && (Ascii.nat_of_ascii c <=? 57)%nat.

(** [/^\d{4}$/.test(id)], line 293. *)
Definition isValidID (id : string) : bool :=
  (String.length id =? 4)%nat && forallb is_digit (list_ascii_of_string id).

(** Lines 301-313. *)
Definition isIDAvailable (users : gmap nat User.t) (id : string) : bool :=
  if isValidID id
  then negb (bool_decide (UniqueId.taken users id))
  else false.

Definition too_many : string := "Unable to generate unique ID after maximum attempts".

(** The loop of lines 227-246 with [left] iterations to go. *)
Fixpoint generateUniqueID_from (users : gmap nat User.t) (random : nat -> Q)
    (left attempts : nat) : string + string :=
  match left with
  | O => inl too_many
  | S left' =>
      let id := UniqueId.candidate (random attempts) in
      if decide (UniqueId.taken users id)
      then generateUniqueID_from users random left' (S attempts)
      else inr id
  end.

(** [generateUniqueID(maxAttempts)]: the id, or the message of the error
    thrown. *)
Definition generateUniqueID (users : gmap nat User.t) (random : nat -> Q)
    (maxAttempts : nat) : string + string :=
  generateUniqueID_from users random maxAttempts 0.

(** Lines 259-264: the ids of the users that have one. *)
Definition existing_ids (users : gmap nat User.t) : gset string :=
  list_to_set
    (omap (fun u =>
             match User.uniqueId u with
             | Some s => if decide (s = "") then None else Some s
             | None => None
             end)
          (map_to_list users).*2).

(** The loop of lines 269-278 with [left] iterations before [attempts]
    reaches [count * 10]. *)
Fixpoint collect (random : nat -> Q) (count left attempts : nat)
    (ids : list string) (usedIds : gset string) : list string :=
  match left with
  | O => ids
  | S left' =>
      if (length ids <? count)%nat then
        let id := UniqueId.candidate (random attempts) in
        if decide (id ∈ usedIds)
        then collect random count left' (S attempts) ids usedIds
        else collect random count left' (S attempts) (ids ++ [id])%list
               ({[ id ]} ∪ usedIds)
      else ids
  end.

Definition too_few (got count : nat) : string :=
  String.append "Could only generate "
    (String.append (pretty got)
       (String.append " out of "
          (String.append (pretty count) " requested unique IDs"))).

(** [generateMultipleUniqueIDs(count)], lines 254-285. *)
Definition generateMultipleUniqueIDs (users : gmap nat User.t)
    (random : nat -> Q) (count : nat) : string + list string :=
  let ids := collect random count (count * 10) 0 [] (existing_ids users) in
  if (length ids <? count)%nat then inl (too_few (length ids) count) else inr ids.

Definition invalid_format : string := "Invalid ID format".
Definition not_available : string := "ID is not available".

(** [reserveID(id, userId)], lines 321-343: the error thrown, or the value
    returned with the user collection after [findByIdAndUpdate]. *)
Definition reserveID (users : gmap nat User.t) (id : string) (userId : ObjectId)
    : string + (bool * gmap nat User.t) :=
  if negb (isValidID id) then inl invalid_format
  else if negb (isIDAvailable users id) then inl not_available
  else
    match users !! userId with
    | Some _ => inr (true, alter (UniqueId.with_uniqueId id) userId users)
    | None => inr (false, users)
    end.

(** No two users hold the same id. *)
Definition ids_unique (users : gmap nat User.t) : Prop :=
  forall (i j : nat) u v id,
    users !! i = Some u -> users !! j = Some v ->
    User.uniqueId u = Some id -> User.uniqueId v = Some id -> i = j.

End IdUtil.

(** ** The middlewares in full

    [authenticateToken], [optionalAuth] and [requireRole] of the
    authentication middleware, with the token as the request carries it:
    absent, rejected by [jwt.verify], or decoded to the id of a user. *)
Module Middleware.

Inductive Token :=
| NoToken
| BadToken
| Decoded (userId : ObjectId).

Definition please_log_in : Response :=
  Redirect 401 "/auth/login?error=Please log in to access this page".

Definition invalid_token : Response :=
  Redirect 401 "/auth/login?error=Invalid or expired token".

Definition login_required : Response := Render 401 "error".

(** [authenticateToken]: the answer that ends the request, or [req.user]
    with its id for the next handler. *)
Definition authenticateToken (db : DB) (token : Token) (now : Date)
    : (Response + ObjectId * User.t) * DB :=
  match token with
  | NoToken => (inl please_log_in, db)
  | BadToken => (inl invalid_token, db)
  | Decoded userId =>
      match Auth.authenticateToken db userId now with
      | (Some user, db') => (inr (userId, user), db')
      | (None, db') => (inl Auth.rejected, db')
      end
  end.

(** [optionalAuth]: [req.user], if any; nothing is stored. *)
Definition optionalAuth (db : DB) (token : Token) : option (ObjectId * User.t) :=
  match token with
  | Decoded userId =>
      match users db !! userId with
      | Some user => if User.isActive user then Some (userId, user) else None
      | None => None
      end
  | _ => None
  end.

(** [requireRole(allowedRoles)] with one role or an array of roles: the
    answer that ends the request, if any. *)
Definition requireRole (allowedRoles : list User.Role)
    (user : option (ObjectId * User.t)) : option Response :=
  match user with
  | None => Some login_required
  | Some (_, u) =>
      if bool_decide (User.role u ∈ allowedRoles) then None else Some Auth.denied
  end.

(** A route behind [router.use(authenticateToken)] and
    [router.use(requireRole(role))]: [handler] gets the id of [req.user]
    and the database the middleware left. *)
Definition protected (role : User.Role)
    (handler : ObjectId -> DB -> Response * DB)
    (db : DB) (token : Token) (now : Date) : Response * DB :=
  match authenticateToken db token now with
  | (inl res, db') => (res, db')
  | (inr (userId, user), db') =>
      match requireRole [role] (Some (userId, user)) with
      | Some res => (res, db')
      | None => handler userId db'
      end
  end.

End Middleware.

(** ** Routes behind their middlewares *)
Module Routes.

(** POST /student/claim-donation/:donationId as mounted: behind
    [authenticateToken] and [requireRole('student')]. *)
Definition claim_donation (db : DB) (token : Middleware.Token)
    (donationId : ObjectId) (now : Date) : Response * DB :=
  Middleware.protected User.student
    (fun student db' => Claim.claim_donation db' donationId student now)
    db token now.

(** POST /admin/process-payment/:paymentId as mounted: behind
    [authenticateToken] and [requireRole('admin')]. *)
Definition process_payment (db : DB) (token : Middleware.Token)
    (paymentId : ObjectId) (body : ProcessPayment.Body) (now : Date)
    : Response * DB :=
  Middleware.protected User.admin
    (fun admin db' => ProcessPayment.process_payment db' paymentId admin body now)
    db token now.

End Routes.

(** ** Student routes: POST /student/request and GET /student/dashboard

    src/routes/student.js lines 16-55 and 58-107. *)
Module Student.

(** A numeric form field as [Number] reads it: absent or empty, not a
    number, or the number [q]. *)
Inductive NumField :=
| NumAbsent
| NumInvalid
| NumValue (q : Q).

Record Body := mkBody {
  type : string;
  description : string;
  urgencyLevel : string;       (* the empty string: absent *)
  amount : NumField
}.

Definition fill_in : Response :=
  Redirect 400 "/student/dashboard?error=Please fill in all required fields".

Definition submitted : Response :=
  Redirect 302
    "/student/dashboard?success=Your request has been submitted successfully!".

Definition failed : Response :=
  Redirect 500 "/student/dashboard?error=Failed to submit request".

(** The cast of the [urgencyLevel] path to its enum. *)
Definition urgency_of (s : string) : option Request.Urgency :=
  if decide (s = "low") then Some Request.low
  else if decide (s = "medium") then Some Request.medium
  else if decide (s = "high") then Some Request.high
  else if decide (s = "critical") then Some Request.critical
  else None.

(** [urgencyLevel || 'medium'] and [amount || 0], lines 71-72, as the
    schema casts them; [None] is a value the schema rejects. *)
Definition urgency_or_medium (s : string) : option Request.Urgency :=
  if decide (s = "") then Some Request.medium else urgency_of s.

Definition amount_or_zero (a : NumField) : option Q :=
  match a with
  | NumAbsent => Some 0%Q
  | NumInvalid => None
  | NumValue q => Some q
  end.

(** [new Request({...})], lines 67-74, with the schema defaults. *)
Definition new_request (student : ObjectId) (ty descr : string)
    (u : Request.Urgency) (a : Q) (now : Date) : Request.t :=
  {| Request.student := student; Request.type := ty;
     Request.description := descr; Request.urgencyLevel := u;
     Request.amount := a; Request.status := Request.pending;
     Request.fulfilledBy := None; Request.fulfilledAt := None;
     Request.priority := now; Request.createdAt := now;
     Request.updatedAt := now |}.

(** POST /student/request for the authenticated [student]. *)
Definition post_request (db : DB) (student : ObjectId) (body : Body)
    (now : Date) : Response * DB :=
  if decide (type body = "") then (fill_in, db)
  else if decide (description body = "") then (fill_in, db)
  else
    match urgency_or_medium (urgencyLevel body), amount_or_zero (amount body) with
    | Some u, Some a =>
        let newRequest := new_request student (type body) (description body) u a now in
        if Request.validate newRequest
        then (submitted, set_requests (fun l => (l ++ [newRequest])%list) db)
        else (failed, db)
    | _, _ => (failed, db)
    end.

(** [Request.find({ student }).sort({ createdAt: -1 })], lines 21-23. *)
Definition myRequests (db : DB) (student : ObjectId) : list Request.t :=
  Listing.sort [(Listing.createdAt, Listing.Desc)]
    (List.filter (fun r => bool_decide (Request.student r = student)) (requests db)).

(** Lines 31-35. *)
Record Stats := mkStats {
  totalRequests : nat;
  pendingRequests : nat;
  fulfilledRequests : nat
}.

Definition stats (db : DB) (student : ObjectId) : Stats :=
  {| totalRequests := length (myRequests db student);
     pendingRequests :=
       length (List.filter
                 (fun r => bool_decide (Request.status r = Request.pending))
                 (myRequests db student));
     fulfilledRequests :=
       length (List.filter
                 (fun r => bool_decide (Request.status r = Request.fulfilled))
                 (myRequests db student)) |}.

End Student.

(** ** POST /donor/donate

    src/routes/admin.js lines 394-456, for the authenticated donor.  The
    uploaded images and the quantity are not kept in [Donation.t]; the
    quantity still takes part in the validation. *)
Module Donate.

(** The [value] field as [parseFloat] reads it: absent or empty, not a
    number, or the number [q]. *)
Inductive ValueField :=
| ValueMissing
| ValueNaN
| ValueNum (q : Q).

Record Body := mkBody {
  type : string;
  description : string;
  value : ValueField;
  quantity : option Z          (* [parseInt(quantity)]; [None] is NaN *)
}.

Definition fill_in : Response :=
  Redirect 400 "/donor/dashboard?error=Please fill in all required fields".

Definition listed : Response :=
  Redirect 302
    "/donor/dashboard?success=Your donation has been listed successfully!".

Definition failed : Response :=
  Redirect 500 "/donor/dashboard?error=Failed to create donation".

(** [parseInt(quantity) || 1], line 414. *)
Definition quantity_or_one (q : option Z) : Z :=
  match q with
  | None => 1
  | Some z => if decide (z = 0) then 1 else z
  end.

(** [new Donation({...})], lines 409-417, with the schema defaults. *)
Definition new_donation (donor : ObjectId) (ty descr : string) (v : Q)
    (now : Date) : Donation.t :=
  {| Donation.donor := donor; Donation.type := ty;
     Donation.description := descr; Donation.value := v;
     Donation.status := Donation.available; Donation.recipient := None;
     Donation.donatedAt := None;
     Donation.expiresAt := now + 30 * 24 * 60 * 60 * 1000;
     Donation.createdAt := now; Donation.updatedAt := now |}.

(** Validation run by [save()]: [type] in its enum, [value] at least 0,
    [quantity] at least 1; [description] was checked by the handler. *)
Definition validate (d : Donation.t) (qty : Z) : bool :=
  bool_decide (Donation.type d ∈ Donation.type_enum)
  && Qle_bool 0 (Donation.value d)
  && (1 <=? qty).

(** The handler; [newId] is the [_id] given to the new document. *)
Definition donate (db : DB) (donor : ObjectId) (body : Body)
    (newId : ObjectId) (now : Date) : Response * DB :=
  if decide (type body = "") then (fill_in, db)
  else if decide (description body = "") then (fill_in, db)
  else
    match value body with
    | ValueMissing => (fill_in, db)
    | ValueNaN => (failed, db)
    | ValueNum v =>
        let newDonation := new_donation donor (type body) (description body) v now in
        if validate newDonation (quantity_or_one (quantity body)) then
          match donations db !! newId with
          | Some _ => (failed, db)
          | None =>
              (listed,
               set_users (alter Donor.count_donation donor)
                 (set_donations (insert newId newDonation) db))
          end
        else (failed, db)
    end.

End Donate.

(** ** Paging through the users

    [AdminController.getUsers], lines 299-329 of the admin controller
    (src/unnamed/part_001).  [sorted] is the user collection in the order of
    [sort({ createdAt: -1 })]. *)
Module AdminUsers.

(** [parseInt(x) || d]: [None] is NaN. *)
Definition parsed_or (x : option Z) (d : Z) : Z :=
  match x with
  | None => d
  | Some z => if decide (z = 0) then d else z
  end.

Definition role_string (r : User.Role) : string :=
  match r with
  | User.student => "student" | User.donor => "donor" | User.admin => "admin"
  end.

(** [role ? { role } : { role: { $ne: 'admin' } }], line 304. *)
Definition query (role : option string) (u : User.t) : bool :=
  match Listing.given role with
  | Some r => bool_decide (role_string (User.role u) = r)
  | None => negb (bool_decide (User.role u = User.admin))
  end.

(** [.limit(limit).skip(skip)]: the cursor skips first; a negative skip
    is refused by the database, a negative limit counts as its absolute
    value and a limit of 0 as no limit. *)
Definition cursor (found : list User.t) (limit skip : Z) : option (list User.t) :=
  if skip <? 0 then None
  else if limit =? 0 then Some (drop (Z.to_nat skip) found)
  else Some (take (Z.to_nat (Z.abs limit)) (drop (Z.to_nat skip) found)).

Record Page := mkPage {
  users : list User.t;
  currentPage : Z;
  totalPages : Z
}.

(** The data handed to the view, or [None] for the error page of the
    [catch] block. *)
Definition getUsers (sorted : list User.t) (role : option string)
    (pageParam limitParam : option Z) : option Page :=
  let page := parsed_or pageParam 1 in
  let limit := parsed_or limitParam 20 in
  let found := List.filter (query role) sorted in
  match cursor found limit ((page - 1) * limit) with
  | None => None
  | Some us =>
      Some {| users := us;
              currentPage := page;
              totalPages :=
                Qceiling (inject_Z (Z.of_nat (length found)) / inject_Z limit)%Q |}
  end.

End AdminUsers.

(** ** Invariants of the claim machine *)

(** The local copy a handler is about to save is a reserved donation. *)
Definition saves_reserved (t : Claim.Task) : Prop :=
  match Claim.pc t with
  | Claim.SaveDonation donation => Donation.status donation = Donation.reserved
  | _ => True
  end.

(** A handler for donation [id] that has not got past the availability
    check. *)
Definition held_back (id : ObjectId) (t : Claim.Task) : Prop :=
  Claim.donationId t = id ->
  Claim.pc t = Claim.FindDonation \/ Claim.pc t = Claim.Done Claim.unavailable.

(** [d'] is the offer [d], possibly claimed since: what the donor entered
    is the same, and a donation that had left [available] has not come
    back to it. *)
Definition same_offer (d d' : Donation.t) : Prop :=
  Donation.donor d' = Donation.donor d
  /\ Donation.type d' = Donation.type d
  /\ Donation.description d' = Donation.description d
  /\ Donation.value d' = Donation.value d
  /\ Donation.expiresAt d' = Donation.expiresAt d
  /\ Donation.createdAt d' = Donation.createdAt d
  /\ (Donation.status d <> Donation.available ->
      Donation.status d' <> Donation.available).

(** ** More sample documents *)

Definition student10 : User.t :=
  {| User.username := "student1"; User.role := User.student;
     User.uniqueId := Some "1234";
     User.donorInfo := {| User.totalDonations := 0; User.isRegularDonor := false |};
     User.isActive := true; User.lastLogin := None |}.

Definition newcomer : User.t :=
  {| User.username := "donor2"; User.role := User.donor; User.uniqueId := None;
     User.donorInfo := {| User.totalDonations := 0; User.isRegularDonor := false |};
     User.isActive := true; User.lastLogin := None |}.

Definition db_of_users (us : gmap nat User.t) : DB := mkDB ∅ [] ∅ us.

Definition books_wanted : Student.Body :=
  Student.mkBody "books" "Textbooks for the spring term" "high" (Student.NumValue 250%Q).

Definition laptop_offered : Donate.Body :=
  Donate.mkBody "laptop" "Dell Inspiron 15" (Donate.ValueNum 600%Q) None.

(** Donor 7 with four donations listed and none claimed. *)
Definition db_of_four_donations : DB :=
  mkDB {[ 1%nat := offer "laptop" 5000; 2%nat := offer "books" 5000;
          3%nat := offer "laptop" 6000; 4%nat := offer "books" 6000 ]}
       [] ∅ {[ 7%nat := donor7 ]}.

(** * Properties *)

(** ** Claiming a donation *)

(** Resume the task the schedule names and expose its database call. *)
Ltac resume_task :=
  cbn [Claim.resume lookup list_lookup insert list_insert Claim.donationId
       Claim.claimant Claim.pc Claim.step set_donations donations].

(** The handler run alone, in closed form. *)
Lemma claim_donation_eq db donationId student now :
  Claim.claim_donation db donationId student now =
  match donations db !! donationId with
  | None => (Claim.unavailable, db)
  | Some d =>
      if decide (Donation.status d = Donation.available) then
        let db1 := Claim.reserve donationId student now d db in
        match list_find (Claim.wanted student (Donation.type d)) (requests db) with
        | Some (i, r) =>
            (Claim.claimed_ok,
             set_requests
               (alter (Request.write_fulfil (Request.fulfil (Donation.donor d) now r)) i) db1)
        | None =>
            let nr := Request.new_fulfilled student (Donation.type d)
                        (String.append "Claimed: " (Donation.description d))
                        (Donation.donor d) now in
            if Request.validate nr
            then (Claim.claimed_ok, set_requests (fun l => (l ++ [nr])%list) db1)
            else (Claim.failed, db1)
        end
      else (Claim.unavailable, db)
  end.
Proof.
  unfold Claim.claim_donation. cbn [Claim.run Claim.step].
  destruct (donations db !! donationId) as [d|] eqn:Hd; [|reflexivity].
  destruct (decide (Donation.status d = Donation.available)) as [Ha|Ha]; [|reflexivity].
  cbn [Claim.step]. rewrite Hd. cbn [Claim.step Donation.claim Donation.type Donation.donor Donation.description set_donations requests].
  destruct (list_find _ (requests db)) as [[i r]|] eqn:Hf.
  - apply list_find_Some in Hf as (Hi & _ & _).
    cbn [Claim.step set_donations requests]. rewrite Hi. reflexivity.
  - cbn zeta. destruct (Request.validate _); reflexivity.
Qed.

Lemma claim_refused db donationId student now :
  (forall d, donations db !! donationId = Some d ->
             Donation.status d <> Donation.available) ->
  Claim.claim_donation db donationId student now = (Claim.unavailable, db).
Proof.
  intros H. rewrite claim_donation_eq.
  destruct (donations db !! donationId) as [d|] eqn:Hd; [|reflexivity].
  destruct (decide _) as [Ha|Ha]; [|reflexivity].
  exfalso. exact (H d eq_refl Ha).
Qed.

Lemma reserve_lookup db donationId student now d :
  donations db !! donationId = Some d ->
  donations (Claim.reserve donationId student now d db) !! donationId
  = Some (Donation.claim student now d).
Proof.
  intros Hd. unfold Claim.reserve. cbn [set_donations donations].
  rewrite lookup_alter_eq, Hd. reflexivity.
Qed.

Lemma claim_donations db donationId student now d :
  donations db !! donationId = Some d ->
  Donation.status d = Donation.available ->
  donations (snd (Claim.claim_donation db donationId student now))
  = donations (Claim.reserve donationId student now d db).
Proof.
  intros Hd Ha. rewrite claim_donation_eq, Hd.
  destruct (decide _) as [_|Hn]; [|contradiction].
  cbn zeta. destruct (list_find _ _) as [[i r]|]; [reflexivity|].
  destruct (Request.validate _); reflexivity.
Qed.

Lemma new_fulfilled_valid student ty descr by_donor now :
  ty ∈ Request.type_enum ->
  Request.validate
    (Request.new_fulfilled student ty (String.append "Claimed: " descr) by_donor now)
  = true.
Proof.
  intros Hty. unfold Request.validate. cbn [Request.new_fulfilled Request.type Request.description Request.amount].
  rewrite bool_decide_eq_true_2 by exact Hty.
  reflexivity.
Qed.

Lemma claim_answer db donationId student now d :
  donations db !! donationId = Some d ->
  Donation.status d = Donation.available ->
  Donation.type d ∈ Request.type_enum ->
  fst (Claim.claim_donation db donationId student now) = Claim.claimed_ok.
Proof.
  intros Hd Ha Hty. rewrite claim_donation_eq, Hd.
  destruct (decide _) as [_|Hn]; [|contradiction].
  cbn zeta. destruct (list_find _ _) as [[i r]|]; [reflexivity|].
  rewrite new_fulfilled_valid by exact Hty. reflexivity.
Qed.

(** The handler never writes to the user collection. *)
Lemma claim_keeps_users db donationId student now :
  users (snd (Claim.claim_donation db donationId student now)) = users db.
Proof.
  rewrite claim_donation_eq.
  destruct (donations db !! donationId) as [d|]; [|reflexivity].
  destruct (decide _) as [_|_]; [|reflexivity].
  cbn zeta. destruct (list_find _ _) as [[i r]|]; [reflexivity|].
  destruct (Request.validate _); reflexivity.
Qed.

(** C6.  A claim of an available donation by student [a] succeeds: the
    handler gets past the availability check and past [donation.save()]
    (it reaches line 136), and the donation is stored as [reserved] with
    [a] as recipient; the answer of the handler is not the refusal, and it
    is the success redirect whenever the kind of the donation is a kind of
    request.  A later claim of the same donation by any student [b] is
    answered "Donation is no longer available" and leaves the whole
    database, hence the status and the recipient of the donation, as they
    were. *)
Theorem claim_then_second_claim_refused db donationId a b t1 t2 d :
  donations db !! donationId = Some d ->
  Donation.status d = Donation.available ->
  let db1 := snd (Claim.claim_donation db donationId a t1) in
  Claim.run 2 donationId a t1 db Claim.FindDonation
  = (Claim.reserve donationId a t1 d db, Claim.FindRequest (Donation.claim a t1 d))
  /\ fst (Claim.claim_donation db donationId a t1) <> Claim.unavailable
  /\ (Donation.type d ∈ Request.type_enum ->
      fst (Claim.claim_donation db donationId a t1) = Claim.claimed_ok)
  /\ (exists d1, donations db1 !! donationId = Some d1
                 /\ Donation.status d1 = Donation.reserved
                 /\ Donation.recipient d1 = Some a)
  /\ Claim.claim_donation db1 donationId b t2 = (Claim.unavailable, db1).
Proof.
  intros Hd Ha db1.
  assert (Hl : donations db1 !! donationId = Some (Donation.claim a t1 d)).
  { unfold db1. rewrite (claim_donations _ _ _ _ d Hd Ha). apply reserve_lookup, Hd. }
  split; [|split; [|split; [|split]]].
  - cbn [Claim.run Claim.step]. rewrite Hd.
    destruct (decide _) as [_|Hn]; [|contradiction].
    cbn [Claim.step]. rewrite Hd. reflexivity.
  - rewrite claim_donation_eq, Hd.
    destruct (decide _) as [_|Hn]; [|contradiction].
    cbn zeta. destruct (list_find _ _) as [[i r]|]; [discriminate|].
    destruct (Request.validate _); discriminate.
  - intros Hty. eapply claim_answer; eauto.
  - eexists. split; [exact Hl|]. split; reflexivity.
  - apply claim_refused. intros d1 Hd1. rewrite Hl in Hd1.
    injection Hd1 as <-. discriminate.
Qed.

Lemma claim_then_second_claim_refused_witness :
  donations (db_of_donation (offer "laptop" 5000)) !! 1%nat
  = Some (offer "laptop" 5000)
  /\ Donation.status (offer "laptop" 5000) = Donation.available
  /\ Claim.claim_donation
       (snd (Claim.claim_donation (db_of_donation (offer "laptop" 5000)) 1 10 100))
       1 11 200
     = (Claim.unavailable,
        snd (Claim.claim_donation (db_of_donation (offer "laptop" 5000)) 1 10 100)).
Proof.
  split; [reflexivity|]. split; [reflexivity|].
  exact (proj2 (proj2 (proj2 (proj2
           (claim_then_second_claim_refused
              (db_of_donation (offer "laptop" 5000)) 1 10 11 100 200
              (offer "laptop" 5000) eq_refl eq_refl))))).
Defined.

(** A claim leaves alone every request that is not pending. *)
Lemma claim_keeps_settled_requests db donationId student now (i : nat) r :
  requests db !! i = Some r ->
  Request.status r <> Request.pending ->
  requests (snd (Claim.claim_donation db donationId student now)) !! i = Some r.
Proof.
  intros Hi Hs. rewrite claim_donation_eq.
  destruct (donations db !! donationId) as [d|]; [|exact Hi].
  destruct (decide _) as [_|_]; [|exact Hi].
  cbn zeta. destruct (list_find _ _) as [[j r']|] eqn:Hf.
  - apply list_find_Some in Hf as (Hj & (_ & _ & Hp) & _).
    cbn [snd set_requests requests Claim.reserve set_donations].
    rewrite list_lookup_alter_ne; [exact Hi|].
    intros ->. rewrite Hi in Hj. injection Hj as ->. contradiction.
  - destruct (Request.validate _); cbn [snd set_requests requests Claim.reserve set_donations].
    + rewrite lookup_app_l; [exact Hi|]. eapply lookup_lt_Some, Hi.
    + exact Hi.
Qed.

(** C5, the claim as stated: a donation whose [expiresAt] is 1000 and whose
    stored status is [available] is claimed at time 2000; the handler
    answers with the success redirect and stores the donation as reserved. *)
Lemma claim_after_expiry :
  Donation.expiresAt (offer "laptop" 1000) < 2000
  /\ fst (Claim.claim_donation (db_of_donation (offer "laptop" 1000)) 1 10 2000)
     = Claim.claimed_ok
  /\ donations (snd (Claim.claim_donation (db_of_donation (offer "laptop" 1000)) 1 10 2000))
       !! 1%nat
     = Some {| Donation.donor := 7; Donation.type := "laptop";
               Donation.description := "Dell Inspiron 15"; Donation.value := 600%Q;
               Donation.status := Donation.reserved; Donation.recipient := Some 10%nat;
               Donation.donatedAt := Some 2000; Donation.expiresAt := 1000;
               Donation.createdAt := 0; Donation.updatedAt := 2000 |}.
Proof. split; [reflexivity|]. split; reflexivity. Qed.

(** The answer of the handler does not depend on [expiresAt]. *)
Lemma claim_answer_ignores_expiry db donationId student now d e :
  donations db !! donationId = Some d ->
  fst (Claim.claim_donation
         (set_donations (insert donationId (Donation.with_expiresAt e d)) db)
         donationId student now)
  = fst (Claim.claim_donation db donationId student now).
Proof.
  intros Hd. rewrite !claim_donation_eq. cbn [set_donations donations requests].
  rewrite lookup_insert_eq, Hd.
  cbn [Donation.with_expiresAt Donation.status Donation.type Donation.donor
       Donation.description].
  destruct (decide _) as [_|_]; [|reflexivity].
  cbn zeta. destruct (list_find _ _) as [[i r]|]; [reflexivity|].
  destruct (Request.validate _); reflexivity.
Qed.

(** C5 (as amended).  A claim is gated by the stored status alone: on a
    donation whose stored status is not [available], for instance
    [expired], it is refused and nothing is written; on one whose stored
    status is [available] the donation is reserved for the claimant
    whatever its [expiresAt]; and replacing [expiresAt] by any other date
    does not change the answer. *)
Theorem claim_gated_by_stored_status db donationId student now d :
  donations db !! donationId = Some d ->
  (Donation.status d <> Donation.available ->
   Claim.claim_donation db donationId student now = (Claim.unavailable, db))
  /\ (Donation.status d = Donation.available ->
      exists d1,
        donations (snd (Claim.claim_donation db donationId student now)) !! donationId
        = Some d1
        /\ Donation.status d1 = Donation.reserved
        /\ Donation.recipient d1 = Some student)
  /\ (forall e,
        fst (Claim.claim_donation
               (set_donations (insert donationId (Donation.with_expiresAt e d)) db)
               donationId student now)
        = fst (Claim.claim_donation db donationId student now)).
Proof.
  intros Hd. split; [|split].
  - intros Hs. apply claim_refused. intros d' Hd'.
    rewrite Hd in Hd'. injection Hd' as <-. exact Hs.
  - intros Ha. exists (Donation.claim student now d).
    rewrite (claim_donations _ _ _ _ d Hd Ha), (reserve_lookup _ _ _ _ d Hd).
    repeat split.
  - intros e. apply claim_answer_ignores_expiry, Hd.
Qed.

Lemma claim_gated_by_stored_status_witness :
  donations (db_of_donation (offer "laptop" 1000)) !! 1%nat = Some (offer "laptop" 1000)
  /\ (Donation.status (offer "laptop" 1000) = Donation.available ->
      exists d1,
        donations (snd (Claim.claim_donation (db_of_donation (offer "laptop" 1000))
                          1 10 2000)) !! 1%nat = Some d1
        /\ Donation.status d1 = Donation.reserved
        /\ Donation.recipient d1 = Some 10%nat).
Proof.
  split; [reflexivity|].
  exact (proj1 (proj2 (claim_gated_by_stored_status
                         (db_of_donation (offer "laptop" 1000)) 1 10 2000
                         (offer "laptop" 1000) eq_refl))).
Defined.

(** When the claimant has a pending request of the kind of the donation,
    the first such request becomes fulfilled by the donor. *)
Lemma claim_fulfils_pending_request db donationId student now d (i : nat) r :
  donations db !! donationId = Some d ->
  Donation.status d = Donation.available ->
  list_find (Claim.wanted student (Donation.type d)) (requests db) = Some (i, r) ->
  fst (Claim.claim_donation db donationId student now) = Claim.claimed_ok
  /\ requests (snd (Claim.claim_donation db donationId student now))
     = <[i := Request.fulfil (Donation.donor d) now r]> (requests db)
  /\ Request.student r = student /\ Request.type r = Donation.type d
  /\ Request.status r = Request.pending.
Proof.
  intros Hd Ha Hf. rewrite claim_donation_eq, Hd.
  destruct (decide _) as [_|Hn]; [|contradiction].
  cbn zeta. rewrite Hf. cbn [fst snd set_requests requests Claim.reserve set_donations].
  apply list_find_Some in Hf as (Hi & (Hs & Hty & Hp) & _).
  split; [reflexivity|]. split; [|auto].
  apply list_eq. intros j. destruct (decide (i = j)) as [<-|Hne].
  - rewrite list_lookup_alter_eq, list_lookup_insert_eq by (eapply lookup_lt_Some, Hi).
    rewrite Hi. reflexivity.
  - rewrite list_lookup_alter_ne, list_lookup_insert_ne by exact Hne. reflexivity.
Qed.

(** Otherwise, and when the kind of the donation is a kind of request, a
    new fulfilled request is appended. *)
Lemma claim_records_new_request db donationId student now d :
  donations db !! donationId = Some d ->
  Donation.status d = Donation.available ->
  list_find (Claim.wanted student (Donation.type d)) (requests db) = None ->
  Donation.type d ∈ Request.type_enum ->
  fst (Claim.claim_donation db donationId student now) = Claim.claimed_ok
  /\ requests (snd (Claim.claim_donation db donationId student now))
     = (requests db
        ++ [Request.new_fulfilled student (Donation.type d)
              (String.append "Claimed: " (Donation.description d))
              (Donation.donor d) now])%list.
Proof.
  intros Hd Ha Hf Hty. rewrite claim_donation_eq, Hd.
  destruct (decide _) as [_|Hn]; [|contradiction].
  cbn zeta. rewrite Hf, new_fulfilled_valid by exact Hty.
  split; reflexivity.
Qed.

(** A donation of a kind the request schema does not accept, claimed by a
    student without a pending request of that kind, is reserved and the
    handler then fails. *)
Lemma claim_of_unrequestable_kind db donationId student now d :
  donations db !! donationId = Some d ->
  Donation.status d = Donation.available ->
  Donation.type d ∉ Request.type_enum ->
  list_find (Claim.wanted student (Donation.type d)) (requests db) = None ->
  Claim.claim_donation db donationId student now
  = (Claim.failed, Claim.reserve donationId student now d db).
Proof.
  intros Hd Ha Hty Hf. rewrite claim_donation_eq, Hd.
  destruct (decide _) as [_|Hn]; [|contradiction].
  cbn zeta. rewrite Hf. unfold Request.validate.
  cbn [Request.new_fulfilled Request.type].
  rewrite bool_decide_eq_false_2 by exact Hty. reflexivity.
Qed.

(** C7, at a donation of kind ["money"], a kind the donation schema accepts
    and the request schema does not: the donation is stored as reserved for
    the claimant, the new fulfilled request fails validation, the handler
    answers "Failed to claim donation" and no request is recorded. *)
Theorem money_claim_leaves_no_request :
  "money" ∈ Donation.type_enum
  /\ Claim.claim_donation (db_of_donation (offer "money" 5000)) 1 10 100
     = (Claim.failed,
        db_of_donation
          {| Donation.donor := 7; Donation.type := "money";
             Donation.description := "Dell Inspiron 15"; Donation.value := 600%Q;
             Donation.status := Donation.reserved; Donation.recipient := Some 10%nat;
             Donation.donatedAt := Some 100; Donation.expiresAt := 5000;
             Donation.createdAt := 0; Donation.updatedAt := 100 |})
  /\ requests (snd (Claim.claim_donation (db_of_donation (offer "money" 5000)) 1 10 100))
     = [].
Proof.
  split; [|split; reflexivity].
  unfold Donation.type_enum. set_solver.
Qed.

(** Two handlers that both read the donation before either saves it both
    get past the availability check, and the second save overwrites the
    recipient of the first. *)
Lemma interleaved_claims_pass_check db donationId a b t1 t2 t3 t4 d :
  donations db !! donationId = Some d ->
  Donation.status d = Donation.available ->
  let s := Claim.run_schedule
             [(0%nat, t1); (1%nat, t2); (0%nat, t3); (1%nat, t4)]
             (db, [Claim.start donationId a; Claim.start donationId b]) in
  map Claim.pc (snd s)
  = [Claim.FindRequest (Donation.claim a t1 d);
     Claim.FindRequest (Donation.claim b t2 d)]
  /\ Donation.recipient <$> donations (fst s) !! donationId = Some (Some b).
Proof.
  intros Hd Ha s. unfold s, Claim.run_schedule, Claim.start.
  cbn [fold_left fst snd].
  resume_task. rewrite Hd. destruct (decide _) as [_|Hn]; [|contradiction].
  resume_task. rewrite Hd. destruct (decide _) as [_|Hn]; [|contradiction].
  resume_task. rewrite Hd.
  resume_task. rewrite lookup_alter_eq, Hd.
  cbn [fmap option_fmap option_map insert list_insert map fst snd Claim.pc
       set_donations donations].
  split; [reflexivity|].
  rewrite !lookup_alter_eq, Hd. reflexivity.
Qed.

(** C1, at two students claiming the same available laptop with their
    handlers resumed in turn: both are answered "Donation claimed
    successfully", the donation ends with the second student as recipient,
    and a fulfilled request is recorded for each of them. *)
Theorem interleaved_claims_both_succeed :
  let s := Claim.run_schedule race
             (db_of_donation (offer "laptop" 5000),
              [Claim.start 1 10; Claim.start 1 11]) in
  map Claim.answered (snd s) = [Some Claim.claimed_ok; Some Claim.claimed_ok]
  /\ Donation.recipient <$> donations (fst s) !! 1%nat = Some (Some 11%nat)
  /\ map Request.student (requests (fst s)) = [10%nat; 11%nat].
Proof. split; [|split]; reflexivity. Qed.

(** ** Processing a payment *)

(** The handler never writes to the user collection. *)
Lemma process_payment_keeps_users db paymentId admin body now :
  users (snd (ProcessPayment.process_payment db paymentId admin body now)) = users db.
Proof.
  unfold ProcessPayment.process_payment.
  destruct (payments db !! paymentId) as [p|]; [|reflexivity].
  destruct (decide (ProcessPayment.action body = "approve")).
  - destruct (decide (ProcessPayment.distributionMethod body = "full")),
      (ProcessPayment.recipient body);
      try reflexivity;
      destruct (decide (ProcessPayment.distributionMethod body = "split"));
      try reflexivity;
      destruct (ProcessPayment.splitAmong body); reflexivity.
  - destruct (decide (ProcessPayment.action body = "reject")); reflexivity.
Qed.

(** C3, the claim as stated: a payment of 100 approved with the split list
    60 + 50, which adds up to 110, is accepted; the list is stored and the
    payment becomes approved. *)
Lemma split_sum_not_checked :
  ~ ProcessPayment.sums_to_amount split_60_50 (payment100 Payment.pending)
  /\ ProcessPayment.process_payment (db_of_payment (payment100 Payment.pending))
       1 9 (approve_split split_60_50) 50
     = (ProcessPayment.approved_ok,
        db_of_payment
          {| Payment.donor := 7; Payment.recipient := None; Payment.amount := 100%Q;
             Payment.status := Payment.approved;
             Payment.processedBy := Some 9%nat; Payment.processedAt := Some 50;
             Payment.distributionMethod := Payment.split;
             Payment.splitAmong := split_60_50;
             Payment.createdAt := 0; Payment.updatedAt := 50 |}).
Proof.
  split.
  - unfold ProcessPayment.sums_to_amount. intros H. vm_compute in H. discriminate.
  - reflexivity.
Qed.

(** C3 (as amended).  When an existing payment is approved with
    distribution method [split], every split list is accepted and stored
    and the payment becomes approved, whatever the amounts of the list add
    up to; in particular every list whose amounts add up to the amount of
    the payment is accepted and stored. *)
Theorem approve_split_stores_any_list db paymentId admin now p l recipient :
  payments db !! paymentId = Some p ->
  let body :=
    ProcessPayment.mkBody "approve" recipient "split" (ProcessPayment.SplitParsed l) in
  let p' :=
    ProcessPayment.to_split l (ProcessPayment.processed Payment.approved admin now p) in
  ProcessPayment.process_payment db paymentId admin body now
  = (ProcessPayment.approved_ok, ProcessPayment.save paymentId p' db)
  /\ payments (ProcessPayment.save paymentId p' db) !! paymentId = Some p'
  /\ Payment.status p' = Payment.approved
  /\ Payment.distributionMethod p' = Payment.split
  /\ Payment.splitAmong p' = l
  /\ Payment.amount p' = Payment.amount p.
Proof.
  intros Hp body p'. split; [|split; [|repeat split]].
  - unfold ProcessPayment.process_payment. rewrite Hp. cbn.
    destruct recipient; reflexivity.
  - unfold ProcessPayment.save. cbn [set_payments payments].
    apply lookup_insert_eq.
Qed.

Lemma approve_split_stores_any_list_witness :
  payments (db_of_payment (payment100 Payment.pending)) !! 1%nat
  = Some (payment100 Payment.pending)
  /\ ProcessPayment.sums_to_amount split_60_40 (payment100 Payment.pending)
  /\ ProcessPayment.process_payment (db_of_payment (payment100 Payment.pending))
       1 9 (approve_split split_60_40) 50
     = (ProcessPayment.approved_ok,
        ProcessPayment.save 1
          (ProcessPayment.to_split split_60_40
             (ProcessPayment.processed Payment.approved 9 50 (payment100 Payment.pending)))
          (db_of_payment (payment100 Payment.pending))).
Proof.
  split; [reflexivity|]. split; [reflexivity|].
  exact (proj1 (approve_split_stores_any_list
                  (db_of_payment (payment100 Payment.pending)) 1 9 50
                  (payment100 Payment.pending) split_60_40 None eq_refl)).
Defined.

(** Whatever the current status of the payment, a rejection is applied. *)
Lemma reject_applies_in_any_status db paymentId admin now p body :
  payments db !! paymentId = Some p ->
  ProcessPayment.action body = "reject" ->
  ProcessPayment.process_payment db paymentId admin body now
  = (ProcessPayment.rejected_ok,
     ProcessPayment.save paymentId
       (ProcessPayment.processed Payment.cancelled admin now p) db).
Proof.
  intros Hp Hact. unfold ProcessPayment.process_payment. rewrite Hp, Hact.
  reflexivity.
Qed.

(** Whatever the current status of the payment, an approval is applied,
    unless the split list handed in cannot be read. *)
Lemma approve_applies_in_any_status db paymentId admin now p body :
  payments db !! paymentId = Some p ->
  ProcessPayment.action body = "approve" ->
  ProcessPayment.splitAmong body <> ProcessPayment.SplitMalformed ->
  exists p',
    ProcessPayment.process_payment db paymentId admin body now
    = (ProcessPayment.approved_ok, ProcessPayment.save paymentId p' db)
    /\ Payment.status p' = Payment.approved
    /\ Payment.processedBy p' = Some admin
    /\ Payment.processedAt p' = Some now.
Proof.
  intros Hp Hact Hsplit. unfold ProcessPayment.process_payment.
  rewrite Hp, Hact. cbn [decide decide_rel].
  destruct (decide ("approve" = "approve")) as [_|Hn]; [|contradiction].
  destruct (decide (ProcessPayment.distributionMethod body = "full")),
    (ProcessPayment.recipient body);
    try (eexists; repeat split; reflexivity);
    destruct (decide (ProcessPayment.distributionMethod body = "split"));
    try (eexists; repeat split; reflexivity);
    destruct (ProcessPayment.splitAmong body);
    try contradiction; eexists; repeat split; reflexivity.
Qed.

(** C2 (as amended).  Re-applying the claim to a donation whose status is
    no longer [available] (or that is gone) is always answered "Donation is
    no longer available" and leaves the database unchanged; no claim ever
    alters a request whose status is not [pending]; processing a payment,
    on the other hand, is applied whatever the current status of the
    payment: a rejection stores it as cancelled and an approval as
    approved, with who processed it and when. *)
Theorem stale_claim_refused db donationId student now :
  (forall d, donations db !! donationId = Some d ->
             Donation.status d <> Donation.available) ->
  Claim.claim_donation db donationId student now = (Claim.unavailable, db)
  /\ (forall db0 id0 s0 t0 (i : nat) r,
        requests db0 !! i = Some r ->
        Request.status r <> Request.pending ->
        requests (snd (Claim.claim_donation db0 id0 s0 t0)) !! i = Some r)
  /\ (forall db0 paymentId admin t p body,
        payments db0 !! paymentId = Some p ->
        ProcessPayment.action body = "reject" ->
        ProcessPayment.process_payment db0 paymentId admin body t
        = (ProcessPayment.rejected_ok,
           ProcessPayment.save paymentId
             (ProcessPayment.processed Payment.cancelled admin t p) db0))
  /\ (forall db0 paymentId admin t p body,
        payments db0 !! paymentId = Some p ->
        ProcessPayment.action body = "approve" ->
        ProcessPayment.splitAmong body <> ProcessPayment.SplitMalformed ->
        exists p',
          ProcessPayment.process_payment db0 paymentId admin body t
          = (ProcessPayment.approved_ok, ProcessPayment.save paymentId p' db0)
          /\ Payment.status p' = Payment.approved
          /\ Payment.processedBy p' = Some admin
          /\ Payment.processedAt p' = Some t).
Proof.
  intros H. split; [|split; [|split]].
  - apply claim_refused, H.
  - intros. apply claim_keeps_settled_requests; assumption.
  - intros db0 paymentId admin t p body Hp Hact.
    apply reject_applies_in_any_status; assumption.
  - intros db0 paymentId admin t p body Hp Hact Hsplit.
    apply (approve_applies_in_any_status db0 paymentId admin t p body); assumption.
Qed.

Lemma stale_claim_refused_witness :
  (forall d,
      donations (snd (Claim.claim_donation (db_of_donation (offer "laptop" 5000)) 1 10 100))
        !! 1%nat = Some d ->
      Donation.status d <> Donation.available)
  /\ Claim.claim_donation
       (snd (Claim.claim_donation (db_of_donation (offer "laptop" 5000)) 1 10 100))
       1 11 200
     = (Claim.unavailable,
        snd (Claim.claim_donation (db_of_donation (offer "laptop" 5000)) 1 10 100)).
Proof.
  assert (H : forall d,
             donations (snd (Claim.claim_donation
                               (db_of_donation (offer "laptop" 5000)) 1 10 100))
               !! 1%nat = Some d ->
             Donation.status d <> Donation.available).
  { intros d Hd. vm_compute in Hd. injection Hd as <-. discriminate. }
  split; [exact H|].
  exact (proj1 (stale_claim_refused _ 1 11 200 H)).
Defined.

(** C2, the claim as stated: a payment that is already approved is
    processed again.  Rejecting it answers "Payment rejected" and stores
    the payment as cancelled. *)
Lemma approved_payment_processed_again :
  Payment.status (payment100 Payment.approved) <> Payment.pending
  /\ ProcessPayment.process_payment (db_of_payment (payment100 Payment.approved))
       1 9 reject 50
     = (ProcessPayment.rejected_ok,
        db_of_payment
          {| Payment.donor := 7; Payment.recipient := None; Payment.amount := 100%Q;
             Payment.status := Payment.cancelled;
             Payment.processedBy := Some 9%nat; Payment.processedAt := Some 50;
             Payment.distributionMethod := Payment.full;
             Payment.splitAmong := [];
             Payment.createdAt := 0; Payment.updatedAt := 50 |})
  /\ snd (ProcessPayment.process_payment (db_of_payment (payment100 Payment.approved))
            1 9 reject 50)
     <> db_of_payment (payment100 Payment.approved).
Proof.
  split; [discriminate|]. split; [reflexivity|].
  intros H. apply (f_equal (fun db => Payment.status <$> payments db !! 1%nat)) in H.
  vm_compute in H. discriminate.
Qed.

(** ** Sorted views *)

Section Order.
Import Listing.

Lemma compare_path_antisym p a b :
  compare_path p b a = CompOpp (compare_path p a b).
Proof.
  destruct p; cbn [compare_path].
  - apply Z.compare_antisym.
  - destruct (Request.urgencyLevel a), (Request.urgencyLevel b); reflexivity.
  - symmetry. apply Qcompare_antisym.
Qed.

Lemma compare_path_eq_l p a b c :
  compare_path p a b = Eq -> compare_path p b c = compare_path p a c.
Proof.
  destruct p; cbn [compare_path].
  - intros H. apply Z.compare_eq in H. rewrite H. reflexivity.
  - destruct (Request.urgencyLevel a), (Request.urgencyLevel b);
      try discriminate; reflexivity.
  - intros H. apply Qeq_alt in H. rewrite H. reflexivity.
Qed.

Lemma compare_path_lt_trans p a b c :
  compare_path p a b = Lt -> compare_path p b c = Lt -> compare_path p a c = Lt.
Proof.
  destruct p; cbn [compare_path].
  - rewrite !Z.compare_lt_iff. lia.
  - destruct (Request.urgencyLevel a), (Request.urgencyLevel b),
      (Request.urgencyLevel c); try discriminate; reflexivity.
  - rewrite <- !Qlt_alt. apply Qlt_trans.
Qed.

Lemma orders_eq_r cmp a b c :
  orders cmp -> cmp b c = Eq -> cmp a b = cmp a c.
Proof.
  intros (Hs & He & _) H.
  assert (Hcb : cmp c b = Eq) by (rewrite Hs, H; reflexivity).
  pose proof (He c b a Hcb) as H1.
  rewrite (Hs a b), (Hs a c) in H1.
  destruct (cmp a b), (cmp a c); try discriminate; reflexivity.
Qed.

Lemma orders_gt_trans cmp a b c :
  orders cmp -> cmp a b = Gt -> cmp b c = Gt -> cmp a c = Gt.
Proof.
  intros (Hs & He & Hl) H1 H2.
  assert (Hba : cmp b a = Lt) by (rewrite Hs, H1; reflexivity).
  assert (Hcb : cmp c b = Lt) by (rewrite Hs, H2; reflexivity).
  pose proof (Hl c b a Hcb Hba) as H. rewrite Hs in H.
  destruct (cmp a c); try discriminate; reflexivity.
Qed.

Lemma orders_path p : orders (compare_path p).
Proof.
  split; [|split].
  - intros. apply compare_path_antisym.
  - intros. apply compare_path_eq_l. assumption.
  - intros a b c. apply compare_path_lt_trans.
Qed.

Lemma orders_directed d cmp :
  orders cmp -> orders (fun a b => directed d (cmp a b)).
Proof.
  intros Ho. destruct d; cbn [directed].
  - exact Ho.
  - pose proof Ho as (Hs & He & Hl). split; [|split].
    + intros a b. rewrite (Hs a b). reflexivity.
    + intros a b c H. f_equal. apply He.
      destruct (cmp a b); try discriminate; reflexivity.
    + intros a b c H1 H2.
      assert (cmp a c = Gt); [|now rewrite H].
      apply (orders_gt_trans cmp a b c Ho).
      * destruct (cmp a b); try discriminate; reflexivity.
      * destruct (cmp b c); try discriminate; reflexivity.
Qed.

Lemma orders_lex c1 c2 :
  orders c1 -> orders c2 ->
  orders (fun a b => match c1 a b with Eq => c2 a b | c => c end).
Proof.
  intros O1 O2.
  pose proof O1 as (S1 & E1 & L1). pose proof O2 as (S2 & E2 & L2).
  split; [|split].
  - intros a b. rewrite (S1 a b). destruct (c1 a b); cbn; auto.
  - intros a b c H.
    destruct (c1 a b) eqn:Hab; try discriminate.
    rewrite (E1 a b c Hab). destruct (c1 a c); auto.
  - intros a b c H1 H2.
    destruct (c1 a b) eqn:Hab; try discriminate.
    + rewrite <- (E1 a b c Hab).
      destruct (c1 b c) eqn:Hbc; try discriminate; eauto.
    + destruct (c1 b c) eqn:Hbc; try discriminate.
      * rewrite <- (orders_eq_r c1 a b c O1 Hbc), Hab. reflexivity.
      * rewrite (L1 a b c Hab Hbc). reflexivity.
Qed.

Lemma orders_compare_by o : orders (compare_by o).
Proof.
  induction o as [|[p d] o IH].
  - split; [|split]; cbn; intros; congruence.
  - cbn [compare_by].
    apply (orders_lex (fun a b => directed d (compare_path p a b)) (compare_by o)).
    + apply orders_directed, orders_path.
    + exact IH.
Qed.

Lemma precedes_total o a b : precedes o a b = false -> precedes o b a = true.
Proof.
  unfold precedes. destruct (orders_compare_by o) as (Hs & _).
  rewrite (Hs a b). destruct (compare_by o a b); cbn; congruence.
Qed.

Lemma precedes_trans o a b c :
  precedes o a b = true -> precedes o b c = true -> precedes o a c = true.
Proof.
  unfold precedes. pose proof (orders_compare_by o) as Ho.
  pose proof Ho as (Hs & He & Hl).
  destruct (compare_by o a b) eqn:Hab; try discriminate; intros _.
  - rewrite (He a b c Hab). auto.
  - destruct (compare_by o b c) eqn:Hbc; try discriminate; intros _.
    + rewrite <- (orders_eq_r _ a b c Ho Hbc), Hab. reflexivity.
    + rewrite (Hl a b c Hab Hbc). reflexivity.
Qed.

Lemma insert_perm o x l : Permutation (insert o x l) (x :: l).
Proof.
  induction l as [|y l IH]; cbn [insert]; [reflexivity|].
  destruct (precedes o x y); [reflexivity|].
  rewrite IH. apply perm_swap.
Qed.

Lemma sort_perm o l : Permutation (Listing.sort o l) l.
Proof.
  induction l as [|x l IH]; cbn [Listing.sort]; [reflexivity|].
  rewrite insert_perm, IH. reflexivity.
Qed.

Lemma insert_ordered o x l : ordered o l -> ordered o (insert o x l).
Proof.
  unfold ordered. induction 1 as [|y l Hl IH Hy]; cbn [insert].
  - repeat constructor.
  - destruct (precedes o x y) eqn:Hxy.
    + constructor; [constructor; assumption|].
      constructor; [exact Hxy|].
      eapply Forall_impl; [exact Hy|].
      cbn. intros z Hz. eapply precedes_trans; eauto.
    + constructor; [exact IH|].
      rewrite (insert_perm o x l). constructor; [|exact Hy].
      apply precedes_total, Hxy.
Qed.

Lemma sort_ordered o l : ordered o (Listing.sort o l).
Proof.
  induction l as [|x l IH]; cbn [Listing.sort].
  - constructor.
  - apply insert_ordered, IH.
Qed.

Lemma ordered_lookup o l (i j : nat) a b :
  ordered o l -> l !! i = Some a -> l !! j = Some b -> (i < j)%nat ->
  precedes o a b = true.
Proof.
  unfold ordered. intros Hl. revert i j.
  induction Hl as [|y l Hl IH Hy]; intros i j Hi Hj Hij.
  - rewrite lookup_nil in Hi. discriminate.
  - destruct j as [|j]; [lia|]. cbn in Hj.
    destruct i as [|i].
    + cbn in Hi. injection Hi as ->.
      rewrite Forall_forall in Hy. apply Hy.
      eapply list_elem_of_lookup_2, Hj.
    + cbn in Hi. apply (IH i j Hi Hj). lia.
Qed.

Lemma sort_ordered_id o l : ordered o l -> Listing.sort o l = l.
Proof.
  unfold ordered. induction 1 as [|y l Hl IH Hy]; cbn [Listing.sort]; [reflexivity|].
  rewrite IH. destruct l as [|z l]; [reflexivity|].
  cbn [insert]. inversion Hy as [|? ? Hyz _]; subst. rewrite Hyz. reflexivity.
Qed.

Lemma sort_idempotent o l : Listing.sort o (Listing.sort o l) = Listing.sort o l.
Proof. apply sort_ordered_id, sort_ordered. Qed.
End Order.

Lemma filter_perm {A} (f : A -> bool) (l l' : list A) :
  Permutation l l' -> Permutation (List.filter f l) (List.filter f l').
Proof.
  induction 1 as [|x l l' _ IH|x y l|l1 l2 l3 _ IH1 _ IH2]; cbn [List.filter].
  - constructor.
  - destruct (f x); [constructor|]; exact IH.
  - destruct (f x), (f y); try reflexivity. apply perm_swap.
  - etransitivity; eassumption.
Qed.

Lemma by_urgency_ties a b :
  Request.urgencyLevel a = Request.urgencyLevel b ->
  Request.createdAt a < Request.createdAt b ->
  Listing.precedes Listing.by_urgency b a = false.
Proof.
  intros Hu Hc. unfold Listing.precedes, Listing.by_urgency.
  cbn [Listing.compare_by Listing.compare_path Listing.directed].
  rewrite Hu.
  replace (String.compare _ _) with Eq
    by (destruct (Request.urgencyLevel b); reflexivity).
  cbn [CompOpp].
  apply Z.compare_lt_iff in Hc. rewrite Z.compare_antisym, Hc. reflexivity.
Qed.

Lemma ordered_by_urgency_ties l (i j : nat) a b :
  Listing.ordered Listing.by_urgency l ->
  l !! i = Some a -> l !! j = Some b ->
  Request.urgencyLevel a = Request.urgencyLevel b ->
  Request.createdAt a < Request.createdAt b ->
  (i < j)%nat.
Proof.
  intros Hl Hi Hj Hu Hc.
  destruct (Nat.lt_trichotomy i j) as [H|[H|H]]; [exact H| |].
  - subst j. rewrite Hi in Hj. injection Hj as ->. lia.
  - pose proof (ordered_lookup _ _ _ _ _ _ Hl Hj Hi H) as Hp.
    rewrite (by_urgency_ties a b Hu Hc) in Hp. discriminate.
Qed.

(** C8.  Whatever the order in which the requests were inserted, in the
    view sorted by urgency then creation time (GET /donor/requests with
    sort=urgency, and the dashboard list) a request stands before every
    request of equal urgency created later; the view holds exactly the
    pending requests selected, unaltered; and sorting the view again returns
    it as it is. *)
Theorem urgency_sort_earlier_first db db' (type urgency : option string) :
  Permutation (requests db) (requests db') ->
  let out := Listing.donor_requests db' type urgency (Some "urgency") in
  (forall (i j : nat) a b,
      out !! i = Some a -> out !! j = Some b ->
      Request.urgencyLevel a = Request.urgencyLevel b ->
      Request.createdAt a < Request.createdAt b ->
      (i < j)%nat)
  /\ (forall (i j : nat) a b,
      Listing.studentRequests db' !! i = Some a ->
      Listing.studentRequests db' !! j = Some b ->
      Request.urgencyLevel a = Request.urgencyLevel b ->
      Request.createdAt a < Request.createdAt b ->
      (i < j)%nat)
  /\ Permutation out (List.filter (Listing.query type urgency) (requests db))
  /\ Listing.sort Listing.by_urgency out = out.
Proof.
  intros Hp out. split; [|split; [|split]].
  - intros i j a b. apply ordered_by_urgency_ties. apply sort_ordered.
  - intros i j a b. apply ordered_by_urgency_ties. apply sort_ordered.
  - unfold out, Listing.donor_requests. rewrite sort_perm.
    apply filter_perm. symmetry. exact Hp.
  - apply sort_idempotent.
Qed.

Lemma urgency_sort_earlier_first_witness :
  Permutation (requests (db_of_requests [req 1 Request.high 7; req 2 Request.high 3]))
              (requests (db_of_requests [req 2 Request.high 3; req 1 Request.high 7]))
  /\ Listing.sort Listing.by_urgency
       (Listing.donor_requests
          (db_of_requests [req 2 Request.high 3; req 1 Request.high 7])
          None None (Some "urgency"))
     = Listing.donor_requests
         (db_of_requests [req 2 Request.high 3; req 1 Request.high 7])
         None None (Some "urgency").
Proof.
  split; [apply perm_swap|].
  exact (proj2 (proj2 (proj2
           (urgency_sort_earlier_first
              (db_of_requests [req 1 Request.high 7; req 2 Request.high 3])
              (db_of_requests [req 2 Request.high 3; req 1 Request.high 7])
              None None (perm_swap _ _ _))))).
Defined.

(** The same two requests inserted in either order come out with the one
    created first in front. *)
Example urgency_sort_either_order :
  Listing.donor_requests (db_of_requests [req 2 Request.high 3; req 1 Request.high 7])
    None None (Some "urgency") = [req 2 Request.high 3; req 1 Request.high 7]
  /\ Listing.donor_requests (db_of_requests [req 1 Request.high 7; req 2 Request.high 3])
       None None (Some "urgency") = [req 2 Request.high 3; req 1 Request.high 7].
Proof. split; reflexivity. Qed.

(** Descending order on the stored strings puts medium first, then low,
    then high, then critical. *)
Lemma by_urgency_string_order a b :
  Listing.compare_by [(Listing.urgencyLevel, Listing.Desc)] a b = Lt <->
  match Request.urgencyLevel a, Request.urgencyLevel b with
  | Request.medium, (Request.low | Request.high | Request.critical)
  | Request.low, (Request.high | Request.critical)
  | Request.high, Request.critical => True
  | _, _ => False
  end.
Proof.
  cbn [Listing.compare_by Listing.compare_path Listing.directed].
  destruct (Request.urgencyLevel a), (Request.urgencyLevel b); cbn; intuition discriminate.
Qed.

(** C4, at a request of urgency critical created at 10 and one of urgency
    high created at 5: sorted by urgency descending then creation time
    ascending, both in GET /donor/requests and on the dashboard, the high
    request comes first and the critical one last. *)
Theorem critical_sorts_after_high :
  Listing.donor_requests
    (db_of_requests [req 1 Request.critical 10; req 2 Request.high 5])
    None None (Some "urgency")
  = [req 2 Request.high 5; req 1 Request.critical 10]
  /\ Listing.studentRequests
       (db_of_requests [req 1 Request.critical 10; req 2 Request.high 5])
     = [req 2 Request.high 5; req 1 Request.critical 10].
Proof. split; reflexivity. Qed.

(** ** Unique ids *)

(** A draw lies between 1000 and 9999. *)
Lemma draw_range r : (0 <= r)%Q -> (r < 1)%Q -> 1000 <= UniqueId.draw r <= 9999.
Proof.
  intros H0 H1. unfold UniqueId.draw. split.
  - change 1000 with (Qfloor (inject_Z 1000)).
    apply Qfloor_resp_le.
    rewrite <- (Qplus_0_r (inject_Z 1000)) at 1.
    apply Qplus_le_r. apply Qmult_le_0_compat; [exact H0|discriminate].
  - assert (H : (inject_Z (Qfloor (1000 + r * 9000)) < inject_Z 10000)%Q).
    { eapply Qle_lt_trans; [apply Qfloor_le|].
      change (inject_Z 10000) with (1000 + 1 * 9000)%Q.
      apply Qplus_lt_r. apply Qmult_lt_compat_r; [reflexivity|exact H1]. }
    rewrite <- Zlt_Qlt in H. lia.
Qed.

Lemma loop_spec users random left attempts :
  match UniqueId.loop users random left attempts with
  | (Some id, n) =>
      exists k, (attempts <= k < attempts + left)%nat /\ n = S k
                /\ id = UniqueId.candidate (random k)
                /\ ~ UniqueId.taken users id
                /\ forall j, (attempts <= j < k)%nat ->
                             UniqueId.taken users (UniqueId.candidate (random j))
  | (None, n) =>
      n = (attempts + left)%nat
      /\ forall j, (attempts <= j < attempts + left)%nat ->
                   UniqueId.taken users (UniqueId.candidate (random j))
  end.
Proof.
  revert attempts. induction left as [|left IH]; intros attempts; cbn [UniqueId.loop].
  - split; [lia|]. intros j Hj. lia.
  - destruct (decide _) as [Ht|Ht].
    + specialize (IH (S attempts)).
      destruct (UniqueId.loop users random left (S attempts)) as [[id|] n].
      * destruct IH as (k & Hk & Hn & Hid & Hfree & Hbefore).
        exists k. split; [lia|]. split; [exact Hn|]. split; [exact Hid|].
        split; [exact Hfree|].
        intros j Hj. destruct (decide (j = attempts)) as [->|Hne]; [exact Ht|].
        apply Hbefore. lia.
      * destruct IH as (Hn & Hall). split; [lia|].
        intros j Hj. destruct (decide (j = attempts)) as [->|Hne]; [exact Ht|].
        apply Hall. lia.
    + exists attempts. split; [lia|]. split; [reflexivity|].
      split; [reflexivity|]. split; [exact Ht|].
      intros j Hj. lia.
Qed.


Lemma coin_range : forall k, (0 <= coin k)%Q /\ (coin k < 1)%Q.
Proof. intros k. split; [discriminate|reflexivity]. Qed.


(** With the only id drawn already held, the ten attempts are used up. *)
Example unique_id_exhausted :
  UniqueId.generate {[ 7%nat := UniqueId.with_uniqueId "5500" donor7 ]} coin
  = (None, 10%nat)
  /\ UniqueId.save_new {[ 7%nat := UniqueId.with_uniqueId "5500" donor7 ]} coin 8
       {| User.username := "donor2"; User.role := User.donor; User.uniqueId := None;
          User.donorInfo := {| User.totalDonations := 0; User.isRegularDonor := false |};
          User.isActive := true; User.lastLogin := None |}
     = inl UniqueId.exhausted.
Proof. split; reflexivity. Qed.

(** ** Regular donors *)




Lemma qualifies_iff s :
  Donor.qualifies s = true <->
  (5 <= Donor.totalDonations s)%nat \/ (1000 <= Donor.totalPayments s)%Q.
Proof.
  unfold Donor.qualifies. rewrite orb_true_iff, Nat.leb_le, Qle_bool_iff. reflexivity.
Qed.

Lemma dashboard_eq db donorId now u :
  users db !! donorId = Some u ->
  User.isActive u = true -> User.role u = User.donor ->
  Donor.dashboard db donorId now =
  (Donor.page,
   if Donor.qualifies (Donor.stats db donorId)
   then set_users (alter Donor.mark_regular donorId)
          (set_users (alter (Auth.touch now) donorId) db)
   else set_users (alter (Auth.touch now) donorId) db).
Proof.
  intros Hu Ha Hr. unfold Donor.dashboard, Auth.authenticateToken.
  rewrite Hu, Ha. unfold Auth.requireRole. cbn [Auth.touch User.role].
  rewrite Hr. cbn [bool_decide decide_rel].
  change (Donor.stats (set_users _ db) donorId) with (Donor.stats db donorId).
  rewrite bool_decide_eq_true_2 by reflexivity.
  destruct (Donor.qualifies _); reflexivity.
Qed.




(** * Further properties *)

(** ** The id utilities *)

Lemma four_digits_table :
  forallb (fun n => IdUtil.isValidID (pretty (Z.of_nat n + 1000)))
          (List.seq 0 (Z.to_nat 9000)) = true.
Proof. vm_compute. reflexivity. Qed.

Lemma candidate_valid z :
  1000 <= z <= 9999 -> IdUtil.isValidID (pretty z) = true.
Proof.
  intros Hz. pose proof four_digits_table as H.
  rewrite forallb_forall in H.
  specialize (H (Z.to_nat (z - 1000))).
  replace (Z.of_nat (Z.to_nat (z - 1000)) + 1000) with z in H by lia.
  apply H. apply in_seq. lia.
Qed.

Lemma generateUniqueID_from_loop users random left attempts :
  IdUtil.generateUniqueID_from users random left attempts
  = match fst (UniqueId.loop users random left attempts) with
    | Some id => inr id
    | None => inl IdUtil.too_many
    end.
Proof.
  revert attempts. induction left as [|left IH]; intros attempts;
    cbn [IdUtil.generateUniqueID_from UniqueId.loop]; [reflexivity|].
  destruct (decide _); [apply IH|reflexivity].
Qed.

Lemma generateUniqueID_from_more users random left extra attempts id :
  IdUtil.generateUniqueID_from users random left attempts = inr id ->
  IdUtil.generateUniqueID_from users random (left + extra) attempts = inr id.
Proof.
  revert attempts. induction left as [|left IH]; intros attempts;
    cbn [IdUtil.generateUniqueID_from Nat.add]; [discriminate|].
  destruct (decide _); [apply IH|trivial].
Qed.

Lemma generateUniqueID_from_free users random left attempts id :
  IdUtil.generateUniqueID_from users random left attempts = inr id ->
  ~ UniqueId.taken users id
  /\ exists k, (attempts <= k < attempts + left)%nat
               /\ id = UniqueId.candidate (random k).
Proof.
  rewrite generateUniqueID_from_loop.
  pose proof (loop_spec users random left attempts) as H.
  destruct (UniqueId.loop users random left attempts) as [[id'|] n]; cbn [fst];
    [|discriminate].
  intros [= <-]. destruct H as (k & Hk & _ & Hid & Hfree & _).
  split; [exact Hfree|]. exists k. split; assumption.
Qed.


(** X3.  generateUniqueID with its default of ten attempts returns exactly the id
    that the pre-save hook of User would assign from the same draws, and fails
    exactly when the hook fails; an id found within n attempts is the id found
    within any larger number of attempts; a returned id is never one a stored
    user holds; with no attempt allowed the call fails. *)
Theorem generateUniqueID_agrees_with_hook users random :
  IdUtil.generateUniqueID users random 10
  = match fst (UniqueId.generate users random) with
    | Some id => inr id
    | None => inl IdUtil.too_many
    end
  /\ (forall n m id,
        IdUtil.generateUniqueID users random n = inr id -> (n <= m)%nat ->
        IdUtil.generateUniqueID users random m = inr id)
  /\ (forall n id,
        IdUtil.generateUniqueID users random n = inr id ->
        ~ UniqueId.taken users id)
  /\ IdUtil.generateUniqueID users random 0 = inl IdUtil.too_many.
Proof.
  split; [|split; [|split]].
  - apply generateUniqueID_from_loop.
  - intros n m id H Hnm. unfold IdUtil.generateUniqueID in *.
    replace m with (n + (m - n))%nat by lia.
    apply generateUniqueID_from_more, H.
  - intros n id H. apply (generateUniqueID_from_free _ _ _ _ _ H).
  - reflexivity.
Qed.

Lemma candidate_valid_draw r :
  (0 <= r)%Q -> (r < 1)%Q -> IdUtil.isValidID (UniqueId.candidate r) = true.
Proof. intros H0 H1. apply candidate_valid, draw_range; assumption. Qed.


(** X1.  While Math.random() stays in [0,1), every id that the pre-save hook of
    User draws, and every id that generateUniqueID returns whatever its number
    of attempts, is a string of four digits: isValidID accepts it, and
    isIDAvailable reports it free among the stored users. *)
Theorem generated_ids_pass_the_checks users (random : nat -> Q) :
  (forall k, (0 <= random k)%Q /\ (random k < 1)%Q) ->
  (forall id,
      fst (UniqueId.generate users random) = Some id ->
      IdUtil.isValidID id = true /\ IdUtil.isIDAvailable users id = true)
  /\ (forall n id,
        IdUtil.generateUniqueID users random n = inr id ->
        IdUtil.isValidID id = true /\ IdUtil.isIDAvailable users id = true).
Proof.
  intros Hr.
  assert (Hu : forall n id,
             IdUtil.generateUniqueID users random n = inr id ->
             IdUtil.isValidID id = true /\ IdUtil.isIDAvailable users id = true).
  { intros n id H. apply generateUniqueID_from_free in H as (Hfree & k & _ & ->).
    assert (Hv : IdUtil.isValidID (UniqueId.candidate (random k)) = true)
      by (apply candidate_valid_draw; apply Hr).
    split; [exact Hv|]. unfold IdUtil.isIDAvailable. rewrite Hv.
    rewrite bool_decide_eq_false_2 by exact Hfree. reflexivity. }
  split; [|exact Hu].
  intros id H. apply (Hu 10%nat).
  unfold IdUtil.generateUniqueID. rewrite generateUniqueID_from_loop.
  unfold UniqueId.generate in H. rewrite H. reflexivity.
Qed.

Lemma generated_ids_pass_the_checks_witness :
  (forall k, (0 <= coin k)%Q /\ (coin k < 1)%Q)
  /\ IdUtil.isValidID "5500" = true
  /\ IdUtil.isIDAvailable ∅ "5500" = true.
Proof.
  split; [exact coin_range|].
  exact (proj1 (generated_ids_pass_the_checks ∅ coin coin_range) "5500" eq_refl).
Defined.










(** With a source that keeps drawing the same number a second id cannot be
    found: the twenty attempts are used up. *)
Example generateMultipleUniqueIDs_runs_out :
  IdUtil.generateMultipleUniqueIDs ∅ coin 2
  = inl "Could only generate 1 out of 2 requested unique IDs"
  /\ IdUtil.generateMultipleUniqueIDs ∅ coin 0 = inr [].
Proof. split; reflexivity. Qed.

Lemma taken_alter_with_uniqueId users id userId u x :
  users !! userId = Some u ->
  UniqueId.taken (alter (UniqueId.with_uniqueId id) userId users) x <->
  x = id \/ exists j v, j <> userId /\ users !! j = Some v /\ User.uniqueId v = Some x.
Proof.
  intros Hu. unfold UniqueId.taken, map_Exists. split.
  - intros (j & v & Hj & Hx). destruct (decide (j = userId)) as [->|Hne].
    + rewrite lookup_alter_eq, Hu in Hj. injection Hj as <-.
      cbn in Hx. injection Hx as ->. left. reflexivity.
    + rewrite lookup_alter_ne in Hj by congruence. right. eauto.
  - intros [->|(j & v & Hne & Hj & Hx)].
    + exists userId, (UniqueId.with_uniqueId id u).
      rewrite lookup_alter_eq, Hu. split; reflexivity.
    + exists j, v. rewrite lookup_alter_ne by congruence. split; assumption.
Qed.


(** X5.  After reserveID(id, userId) has answered true, the user holds the id,
    isIDAvailable(id) is false and a second reserveID of the same id, for any
    user, is refused as not available; the other users are untouched, ids
    stay pairwise different, and the id the user held before is free again. *)
Theorem reserveID_round_trip users id userId users' :
  IdUtil.ids_unique users ->
  IdUtil.reserveID users id userId = inr (true, users') ->
  IdUtil.ids_unique users'
  /\ User.uniqueId <$> users' !! userId = Some (Some id)
  /\ IdUtil.isIDAvailable users' id = false
  /\ (forall other, IdUtil.reserveID users' id other = inl IdUtil.not_available)
  /\ (forall j, j <> userId -> users' !! j = users !! j)
  /\ (forall u old,
        users !! userId = Some u -> User.uniqueId u = Some old ->
        old <> id -> IdUtil.isValidID old = true ->
        IdUtil.isIDAvailable users' old = true).
Proof.
  intros Huniq H. unfold IdUtil.reserveID in H.
  destruct (IdUtil.isValidID id) eqn:Hv; [|discriminate]. cbn [negb] in H.
  destruct (IdUtil.isIDAvailable users id) eqn:Hav; [|discriminate]. cbn [negb] in H.
  destruct (users !! userId) as [u|] eqn:Hu; [|discriminate].
  injection H as <-.
  assert (Hfree : ~ UniqueId.taken users id).
  { unfold IdUtil.isIDAvailable in Hav. rewrite Hv in Hav.
    apply negb_true_iff, bool_decide_eq_false in Hav. exact Hav. }
  assert (Htaken : UniqueId.taken (alter (UniqueId.with_uniqueId id) userId users) id).
  { apply (taken_alter_with_uniqueId users id userId u id Hu). left. reflexivity. }
  assert (Hun : IdUtil.isIDAvailable (alter (UniqueId.with_uniqueId id) userId users) id
                = false).
  { unfold IdUtil.isIDAvailable. rewrite Hv.
    rewrite bool_decide_eq_true_2 by exact Htaken. reflexivity. }
  split; [|split; [|split; [|split; [|split]]]].
  - intros i j a b x Hi Hj Ha Hb.
    destruct (decide (i = userId)) as [->|Hni], (decide (j = userId)) as [->|Hnj];
      [reflexivity| | |].
    + rewrite lookup_alter_eq, Hu in Hi. injection Hi as <-.
      cbn in Ha. injection Ha as <-.
      rewrite lookup_alter_ne in Hj by congruence.
      exfalso. apply Hfree. exists j, b. split; assumption.
    + rewrite lookup_alter_eq, Hu in Hj. injection Hj as <-.
      cbn in Hb. injection Hb as <-.
      rewrite lookup_alter_ne in Hi by congruence.
      exfalso. apply Hfree. exists i, a. split; assumption.
    + rewrite lookup_alter_ne in Hi by congruence.
      rewrite lookup_alter_ne in Hj by congruence.
      eapply Huniq; eassumption.
  - rewrite lookup_alter_eq, Hu. reflexivity.
  - exact Hun.
  - intros other. unfold IdUtil.reserveID. rewrite Hv, Hun. reflexivity.
  - intros j Hne. apply lookup_alter_ne. congruence.
  - intros u0 old Hu0 Hold Hne Hvold. injection Hu0 as <-.
    unfold IdUtil.isIDAvailable. rewrite Hvold.
    rewrite bool_decide_eq_false_2; [reflexivity|].
    intros Ht. apply (taken_alter_with_uniqueId users id userId u old Hu) in Ht.
    destruct Ht as [->|(j & v & Hj & Hjv & Hx)]; [contradiction|].
    apply Hj. symmetry. eapply (Huniq userId j u v old); eassumption.
Qed.

Lemma reserveID_round_trip_witness :
  IdUtil.reserveID {[ 7%nat := donor7 ]} "9000" 7
  = inr (true, {[ 7%nat := UniqueId.with_uniqueId "9000" donor7 ]})
  /\ IdUtil.isIDAvailable {[ 7%nat := UniqueId.with_uniqueId "9000" donor7 ]} "9000" = false
  /\ IdUtil.isIDAvailable {[ 7%nat := UniqueId.with_uniqueId "9000" donor7 ]} "4821" = true.
Proof.
  split; [reflexivity|].
  assert (Hu : IdUtil.ids_unique {[ 7%nat := donor7 ]}).
  { intros i j a b id Hi Hj _ _.
    apply lookup_singleton_Some in Hi as [<- _].
    apply lookup_singleton_Some in Hj as [<- _]. reflexivity. }
  pose (H := reserveID_round_trip {[ 7%nat := donor7 ]} "9000" 7
               {[ 7%nat := UniqueId.with_uniqueId "9000" donor7 ]} Hu eq_refl).
  split.
  - exact (proj1 (proj2 (proj2 H))).
  - refine (proj2 (proj2 (proj2 (proj2 (proj2 H)))) donor7 "4821" eq_refl eq_refl _ eq_refl).
    discriminate.
Defined.


(** What reserveID refuses, and that it stores nothing then. *)
Lemma reserveID_refusals users id userId :
  (IdUtil.isValidID id = false ->
   IdUtil.reserveID users id userId = inl IdUtil.invalid_format)
  /\ (IdUtil.isValidID id = true -> UniqueId.taken users id ->
      IdUtil.reserveID users id userId = inl IdUtil.not_available)
  /\ (IdUtil.isValidID id = true -> ~ UniqueId.taken users id ->
      users !! userId = None ->
      IdUtil.reserveID users id userId = inr (false, users)).
Proof.
  unfold IdUtil.reserveID, IdUtil.isIDAvailable. split; [|split].
  - intros ->. reflexivity.
  - intros -> Ht. rewrite bool_decide_eq_true_2 by exact Ht. reflexivity.
  - intros -> Ht Hu. rewrite bool_decide_eq_false_2 by exact Ht. rewrite Hu. reflexivity.
Qed.

(** ** The middlewares *)

Lemma authenticateToken_cases db token now :
  (exists userId u,
      token = Middleware.Decoded userId
      /\ users db !! userId = Some u /\ User.isActive u = true
      /\ Middleware.authenticateToken db token now
         = (inr (userId, Auth.touch now u),
            set_users (alter (Auth.touch now) userId) db))
  \/ (exists res,
        Middleware.authenticateToken db token now = (inl res, db)
        /\ (res = Middleware.please_log_in \/ res = Middleware.invalid_token
            \/ res = Auth.rejected)
        /\ Middleware.optionalAuth db token = None).
Proof.
  destruct token as [| |userId]; cbn [Middleware.authenticateToken Middleware.optionalAuth].
  - right. eexists. split; [reflexivity|]. split; [left; reflexivity|reflexivity].
  - right. eexists. split; [reflexivity|]. split; [right; left; reflexivity|reflexivity].
  - unfold Auth.authenticateToken.
    destruct (users db !! userId) as [u|] eqn:Hu.
    + destruct (User.isActive u) eqn:Ha.
      * left. exists userId, u. repeat split; assumption.
      * right. eexists. split; [reflexivity|]. split; [right; right; reflexivity|reflexivity].
    + right. eexists. split; [reflexivity|]. split; [right; right; reflexivity|reflexivity].
Qed.


(** X6.  authenticateToken never touches donations, requests or payments, and of
    the users it changes at most lastLogin of the user the token names.  When
    it refuses, the database is as before; when it lets the request through,
    req.user is the stored user, is active, carries the time of this request
    as lastLogin, and optionalAuth on the same token finds the same user. *)
Theorem authenticateToken_stamps_only_lastLogin db token now :
  let res := fst (Middleware.authenticateToken db token now) in
  let db' := snd (Middleware.authenticateToken db token now) in
  donations db' = donations db /\ requests db' = requests db
  /\ payments db' = payments db
  /\ (forall j u, users db !! j = Some u ->
        exists u', users db' !! j = Some u'
                   /\ User.username u' = User.username u
                   /\ User.role u' = User.role u
                   /\ User.uniqueId u' = User.uniqueId u
                   /\ User.donorInfo u' = User.donorInfo u
                   /\ User.isActive u' = User.isActive u
                   /\ (token <> Middleware.Decoded j -> u' = u))
  /\ match res with
     | inl _ => db' = db
     | inr (userId, user) =>
         token = Middleware.Decoded userId
         /\ users db' !! userId = Some user
         /\ User.isActive user = true
         /\ User.lastLogin user = Some now
         /\ Middleware.optionalAuth db' token = Some (userId, user)
     end.
Proof.
  cbn zeta.
  destruct (authenticateToken_cases db token now)
    as [(userId & u & -> & Hu & Ha & ->)|(res & -> & _ & _)]; cbn [fst snd].
  - split; [reflexivity|]. split; [reflexivity|]. split; [reflexivity|].
    cbn [set_users users]. split.
    + intros j v Hj. destruct (decide (userId = j)) as [->|Hne].
      * exists (Auth.touch now v). rewrite lookup_alter_eq, Hj.
        repeat split. intros Hn. contradiction.
      * exists v. rewrite lookup_alter_ne by exact Hne. repeat split; assumption.
    + split; [reflexivity|]. rewrite lookup_alter_eq, Hu.
      split; [reflexivity|]. split; [exact Ha|]. split; [reflexivity|].
      cbn [Middleware.optionalAuth set_users users].
      rewrite lookup_alter_eq, Hu. cbn. rewrite Ha. reflexivity.
  - split; [reflexivity|]. split; [reflexivity|]. split; [reflexivity|].
    split; [|reflexivity].
    intros j u Hj. exists u. repeat split; assumption.
Qed.





(** X8.  Whatever the token, POST /student/claim-donation changes the donations
    only for a token of an active student, and POST /admin/process-payment
    changes the payments only for a token of an active admin. *)
Theorem only_students_claim_only_admins_process db token now :
  (forall donationId,
      donations (snd (Routes.claim_donation db token donationId now)) <> donations db ->
      exists userId u,
        token = Middleware.Decoded userId /\ users db !! userId = Some u
        /\ User.isActive u = true /\ User.role u = User.student)
  /\ (forall paymentId body,
        payments (snd (Routes.process_payment db token paymentId body now))
        <> payments db ->
        exists userId u,
          token = Middleware.Decoded userId /\ users db !! userId = Some u
          /\ User.isActive u = true /\ User.role u = User.admin).
Proof.
  split.
  - intros donationId Hch. unfold Routes.claim_donation, Middleware.protected in Hch.
    destruct (authenticateToken_cases db token now)
      as [(userId & u & Htok & Hu & Ha & Hauth)|(res & Hauth & _ & _)];
      rewrite Hauth in Hch; [|contradiction].
    cbn [Middleware.requireRole Auth.touch User.role] in Hch.
    destruct (bool_decide _) eqn:Hr; [|contradiction].
    apply bool_decide_eq_true in Hr. apply list_elem_of_singleton in Hr.
    exists userId, u. repeat split; assumption.
  - intros paymentId body Hch.
    unfold Routes.process_payment, Middleware.protected in Hch.
    destruct (authenticateToken_cases db token now)
      as [(userId & u & Htok & Hu & Ha & Hauth)|(res & Hauth & _ & _)];
      rewrite Hauth in Hch; [|contradiction].
    cbn [Middleware.requireRole Auth.touch User.role] in Hch.
    destruct (bool_decide _) eqn:Hr; [|contradiction].
    apply bool_decide_eq_true in Hr. apply list_elem_of_singleton in Hr.
    exists userId, u. repeat split; assumption.
Qed.

(** ** Student routes *)

(** X9.  POST /student/request either answers with the success redirect, and
    then exactly one request was appended: pending, of the student, of the
    posted type (one of the types of the schema), valid and created now,
    with donations, payments and users as before; or stores nothing at
    all.  A missing type or description is answered by the fill-in
    redirect. *)
Theorem post_request_outcomes db student body now :
  let res := fst (Student.post_request db student body now) in
  let db' := snd (Student.post_request db student body now) in
  (res = Student.submitted ->
   exists r,
     requests db' = (requests db ++ [r])%list
     /\ Request.student r = student
     /\ Request.status r = Request.pending
     /\ Request.type r = Student.type body
     /\ Request.type r ∈ Request.type_enum
     /\ Request.validate r = true
     /\ Request.createdAt r = now
     /\ donations db' = donations db /\ payments db' = payments db
     /\ users db' = users db)
  /\ (res <> Student.submitted -> db' = db)
  /\ (Student.type body = "" \/ Student.description body = "" ->
      res = Student.fill_in).
Proof.
  cbn zeta. unfold Student.post_request.
  destruct (decide (Student.type body = "")) as [Ht|Ht].
  { split; [discriminate|]. split; [reflexivity|]. reflexivity. }
  destruct (decide (Student.description body = "")) as [Hd|Hd].
  { split; [discriminate|]. split; [reflexivity|]. reflexivity. }
  destruct (Student.urgency_or_medium _) as [u|];
    [|split; [discriminate|]; split; [reflexivity|]; intros [H|H]; contradiction].
  destruct (Student.amount_or_zero _) as [a|];
    [|split; [discriminate|]; split; [reflexivity|]; intros [H|H]; contradiction].
  cbn zeta. destruct (Request.validate _) eqn:Hv; cbn [fst snd].
  - split; [|split; [intros H; contradiction|intros [H|H]; contradiction]].
    intros _. eexists. split; [reflexivity|].
    split; [reflexivity|]. split; [reflexivity|]. split; [reflexivity|].
    split; [|split; [exact Hv|repeat split]].
    unfold Request.validate in Hv.
    apply andb_true_iff in Hv as [Hv _]. apply andb_true_iff in Hv as [Hv _].
    apply bool_decide_eq_true in Hv. exact Hv.
  - split; [discriminate|]. split; [reflexivity|]. intros [H|H]; contradiction.
Qed.

Lemma filter_length_insert {A} (P : A -> bool) (l : list A) (i : nat) x y :
  l !! i = Some x ->
  (length (List.filter P (<[i := y]> l)) + (if P x then 1 else 0)
   = length (List.filter P l) + (if P y then 1 else 0))%nat.
Proof.
  intros Hi.
  rewrite insert_take_drop by (eapply lookup_lt_Some, Hi).
  rewrite <- (take_drop_middle l i x Hi) at 3.
  rewrite !List.filter_app, !length_app. cbn [List.filter].
  destruct (P x), (P y); cbn [length]; lia.
Qed.

Lemma filter_insert_same {A} (P : A -> bool) (l : list A) (i : nat) x y :
  l !! i = Some x -> P x = false -> P y = false ->
  List.filter P (<[i := y]> l) = List.filter P l.
Proof.
  intros Hi Hx Hy.
  rewrite insert_take_drop by (eapply lookup_lt_Some, Hi).
  rewrite <- (take_drop_middle l i x Hi) at 3.
  rewrite !List.filter_app. cbn [List.filter]. rewrite Hx, Hy. reflexivity.
Qed.

(** Counting in a student's dashboard list is counting in the collection. *)
Lemma myRequests_count (P : Request.t -> bool) db student :
  length (List.filter P (Student.myRequests db student))
  = length (List.filter
              (fun r => bool_decide (Request.student r = student) && P r)
              (requests db)).
Proof.
  unfold Student.myRequests.
  rewrite (Permutation_length (filter_perm P _ _ (sort_perm _ _))).
  f_equal. induction (requests db) as [|x l IH]; cbn [List.filter]; [reflexivity|].
  destruct (bool_decide _); cbn [List.filter andb]; [|exact IH].
  destruct (P x); rewrite IH; reflexivity.
Qed.

Lemma myRequests_total db student :
  length (Student.myRequests db student)
  = length (List.filter (fun r => bool_decide (Request.student r = student))
              (requests db)).
Proof. unfold Student.myRequests. apply Permutation_length, sort_perm. Qed.

Lemma filter_length_gain {A} (P : A -> bool) (l : list A) (i : nat) x y :
  l !! i = Some x -> P x = false -> P y = true ->
  length (List.filter P (<[i := y]> l)) = S (length (List.filter P l)).
Proof.
  intros Hi Hx Hy. pose proof (filter_length_insert P l i x y Hi) as H.
  rewrite Hx, Hy in H. lia.
Qed.

Lemma filter_length_loss {A} (P : A -> bool) (l : list A) (i : nat) x y :
  l !! i = Some x -> P x = true -> P y = false ->
  S (length (List.filter P (<[i := y]> l))) = length (List.filter P l).
Proof.
  intros Hi Hx Hy. pose proof (filter_length_insert P l i x y Hi) as H.
  rewrite Hx, Hy in H. lia.
Qed.

Lemma filter_length_keep {A} (P : A -> bool) (l : list A) (i : nat) x y :
  l !! i = Some x -> P x = P y ->
  length (List.filter P (<[i := y]> l)) = length (List.filter P l).
Proof.
  intros Hi Hxy. pose proof (filter_length_insert P l i x y Hi) as H.
  rewrite Hxy in H. destruct (P y); lia.
Qed.


(** X10.  A successful claim raises the number of fulfilled requests on the
    student's dashboard by exactly one: either a pending request became
    fulfilled (total unchanged, pending one less) or a fulfilled request was
    created (total one more, pending unchanged).  The request lists of the
    other students are as before. *)
Theorem claim_raises_fulfilled_by_one db donationId student now :
  fst (Claim.claim_donation db donationId student now) = Claim.claimed_ok ->
  let db' := snd (Claim.claim_donation db donationId student now) in
  let before := Student.stats db student in
  let after := Student.stats db' student in
  Student.fulfilledRequests after = S (Student.fulfilledRequests before)
  /\ ((Student.totalRequests after = Student.totalRequests before
       /\ S (Student.pendingRequests after) = Student.pendingRequests before)
      \/ (Student.totalRequests after = S (Student.totalRequests before)
          /\ Student.pendingRequests after = Student.pendingRequests before))
  /\ (forall other, other <> student ->
        Student.myRequests db' other = Student.myRequests db other).
Proof.
  intros Hok. cbn zeta. revert Hok. rewrite claim_donation_eq.
  destruct (donations db !! donationId) as [d|] eqn:Hd; [|discriminate].
  destruct (decide _) as [Ha|_]; [|discriminate].
  cbn zeta.
  destruct (list_find _ _) as [[i r]|] eqn:Hf.
  - intros _. cbn [snd]. apply list_find_Some in Hf as (Hi & (Hs & Hty & Hp) & _).
    assert (Hreq : requests
                     (set_requests
                        (alter (Request.write_fulfil
                                  (Request.fulfil (Donation.donor d) now r)) i)
                        (Claim.reserve donationId student now d db))
                   = <[i := Request.fulfil (Donation.donor d) now r]> (requests db)).
    { cbn [set_requests requests Claim.reserve set_donations].
      apply list_eq. intros j. destruct (decide (i = j)) as [<-|Hne].
      - rewrite list_lookup_alter_eq, list_lookup_insert_eq
          by (eapply lookup_lt_Some, Hi).
        rewrite Hi. reflexivity.
      - rewrite list_lookup_alter_ne, list_lookup_insert_ne by exact Hne.
        reflexivity. }
    unfold Student.stats.
    cbn [Student.fulfilledRequests Student.totalRequests Student.pendingRequests].
    rewrite !myRequests_count, !myRequests_total. rewrite Hreq.
    split; [|split].
    + apply (filter_length_gain _ _ i r); [exact Hi| |].
      * apply andb_false_iff. right. apply bool_decide_eq_false_2.
        rewrite Hp. discriminate.
      * apply andb_true_iff. split; apply bool_decide_eq_true_2;
          [exact Hs|reflexivity].
    + left. split.
      * apply (filter_length_keep _ _ i r); [exact Hi|reflexivity].
      * apply (filter_length_loss _ _ i r); [exact Hi| |].
        -- apply andb_true_iff. split; apply bool_decide_eq_true_2; assumption.
        -- apply andb_false_iff. right. apply bool_decide_eq_false_2. discriminate.
    + intros other Hne. unfold Student.myRequests. rewrite Hreq. f_equal.
      apply (filter_insert_same _ _ i r); [exact Hi| |].
      * apply bool_decide_eq_false_2. congruence.
      * apply bool_decide_eq_false_2. cbn. congruence.
  - destruct (Request.validate _) eqn:Hv; [|discriminate].
    intros _. cbn [snd]. unfold Student.stats.
    cbn [Student.fulfilledRequests Student.totalRequests Student.pendingRequests].
    rewrite !myRequests_count, !myRequests_total.
    cbn [set_requests requests Claim.reserve set_donations].
    split; [|split].
    + rewrite List.filter_app, length_app. cbn [List.filter Request.new_fulfilled
        Request.student Request.status].
      rewrite !bool_decide_eq_true_2 by reflexivity. cbn. lia.
    + right. split.
      * rewrite List.filter_app, length_app. cbn [List.filter Request.new_fulfilled
          Request.student].
        rewrite !bool_decide_eq_true_2 by reflexivity. cbn. lia.
      * rewrite List.filter_app, length_app. cbn [List.filter Request.new_fulfilled
          Request.student Request.status].
        rewrite bool_decide_eq_true_2 by reflexivity.
        rewrite (bool_decide_eq_false_2 (Request.fulfilled = Request.pending))
          by discriminate.
        cbn. lia.
    + intros other Hne. unfold Student.myRequests.
      cbn [set_requests requests Claim.reserve set_donations].
      rewrite List.filter_app. cbn [List.filter Request.new_fulfilled Request.student].
      rewrite (bool_decide_eq_false_2 (student = other)) by congruence.
      rewrite app_nil_r. reflexivity.
Qed.

Lemma claim_raises_fulfilled_by_one_witness :
  fst (Claim.claim_donation (db_of_donation (offer "laptop" 5000)) 1 10 100)
  = Claim.claimed_ok
  /\ Student.fulfilledRequests
       (Student.stats
          (snd (Claim.claim_donation (db_of_donation (offer "laptop" 5000)) 1 10 100)) 10)
     = S (Student.fulfilledRequests
            (Student.stats (db_of_donation (offer "laptop" 5000)) 10)).
Proof.
  split; [reflexivity|].
  exact (proj1 (claim_raises_fulfilled_by_one
                  (db_of_donation (offer "laptop" 5000)) 1 10 100 eq_refl)).
Defined.

(** ** Posting, donating and claiming *)

Lemma post_request_submitted db student body now :
  fst (Student.post_request db student body now) = Student.submitted ->
  exists u a,
    Student.type body ∈ Request.type_enum
    /\ snd (Student.post_request db student body now)
       = set_requests
           (fun l => (l ++ [Student.new_request student (Student.type body)
                              (Student.description body) u a now])%list) db.
Proof.
  unfold Student.post_request.
  destruct (decide (Student.type body = "")); [discriminate|].
  destruct (decide (Student.description body = "")); [discriminate|].
  destruct (Student.urgency_or_medium _) as [u|]; [|discriminate].
  destruct (Student.amount_or_zero _) as [a|]; [|discriminate].
  cbn zeta. destruct (Request.validate _) eqn:Hv; [|discriminate].
  intros _. exists u, a. split; [|reflexivity].
  unfold Request.validate in Hv.
  apply andb_true_iff in Hv as [Hv _]. apply andb_true_iff in Hv as [Hv _].
  apply bool_decide_eq_true in Hv. exact Hv.
Qed.


(** X11.  A request that was just posted is found by a claim of an available
    donation of the same type: the claim succeeds, creates no further
    request, and marks a pending request of the student as fulfilled by the
    donor of the donation at the time of the claim. *)
Theorem posted_request_is_fulfilled_by_claim db student body t1 donationId d t2 :
  fst (Student.post_request db student body t1) = Student.submitted ->
  donations db !! donationId = Some d ->
  Donation.status d = Donation.available ->
  Donation.type d = Student.type body ->
  let db1 := snd (Student.post_request db student body t1) in
  let db2 := snd (Claim.claim_donation db1 donationId student t2) in
  fst (Claim.claim_donation db1 donationId student t2) = Claim.claimed_ok
  /\ length (requests db2) = length (requests db1)
  /\ exists (i : nat) r,
       requests db1 !! i = Some r
       /\ Request.student r = student /\ Request.status r = Request.pending
       /\ requests db2 !! i = Some (Request.fulfil (Donation.donor d) t2 r).
Proof.
  intros Hsub Hd Ha Hty db1 db2.
  destruct (post_request_submitted db student body t1 Hsub) as (u & a & _ & Hdb1).
  assert (Hd1 : donations db1 !! donationId = Some d)
    by (unfold db1; rewrite Hdb1; exact Hd).
  assert (Hfind : is_Some (list_find (Claim.wanted student (Donation.type d))
                             (requests db1))).
  { apply (list_find_elem_of _ _
             (Student.new_request student (Student.type body)
                (Student.description body) u a t1)).
    - unfold db1. rewrite Hdb1. cbn [set_requests requests].
      apply elem_of_app. right. apply list_elem_of_singleton. reflexivity.
    - unfold Claim.wanted. cbn. rewrite Hty. repeat split. }
  destruct Hfind as [[i r] Hf].
  destruct (claim_fulfils_pending_request db1 donationId student t2 d i r Hd1 Ha Hf)
    as (Hok & Hreq & Hs & _ & Hp).
  split; [exact Hok|]. fold db2 in Hreq. split.
  - rewrite Hreq. apply length_insert.
  - exists i, r. apply list_find_Some in Hf as (Hi & _ & _).
    split; [exact Hi|]. split; [exact Hs|]. split; [exact Hp|].
    rewrite Hreq. apply list_lookup_insert_eq. eapply lookup_lt_Some, Hi.
Qed.

Lemma posted_request_is_fulfilled_by_claim_witness :
  fst (Student.post_request (db_of_donation (offer "books" 5000)) 10 books_wanted 50)
  = Student.submitted
  /\ donations (db_of_donation (offer "books" 5000)) !! 1%nat
     = Some (offer "books" 5000)
  /\ fst (Claim.claim_donation
            (snd (Student.post_request (db_of_donation (offer "books" 5000)) 10
                    books_wanted 50))
            1 10 100)
     = Claim.claimed_ok.
Proof.
  split; [reflexivity|]. split; [reflexivity|].
  exact (proj1 (posted_request_is_fulfilled_by_claim
                  (db_of_donation (offer "books" 5000)) 10 books_wanted 50 1
                  (offer "books" 5000) 100 eq_refl eq_refl eq_refl eq_refl)).
Defined.

(** Donations *)
Lemma donate_listed db donor body newId now :
  fst (Donate.donate db donor body newId now) = Donate.listed ->
  exists v,
    Donate.value body = Donate.ValueNum v
    /\ donations db !! newId = None
    /\ Donate.type body ∈ Donation.type_enum
    /\ snd (Donate.donate db donor body newId now)
       = set_users (alter Donor.count_donation donor)
           (set_donations
              (insert newId
                 (Donate.new_donation donor (Donate.type body)
                    (Donate.description body) v now)) db).
Proof.
  unfold Donate.donate.
  destruct (decide (Donate.type body = "")); [discriminate|].
  destruct (decide (Donate.description body = "")); [discriminate|].
  destruct (Donate.value body) as [| |v]; [discriminate|discriminate|].
  cbn zeta. destruct (Donate.validate _ _) eqn:Hv; [|discriminate].
  destruct (donations db !! newId) eqn:Hn; [discriminate|].
  intros _. exists v. split; [reflexivity|]. split; [reflexivity|].
  split; [|reflexivity].
  unfold Donate.validate in Hv.
  apply andb_true_iff in Hv as [Hv _]. apply andb_true_iff in Hv as [Hv _].
  apply bool_decide_eq_true in Hv. exact Hv.
Qed.

Lemma donate_refused db donor body newId now :
  fst (Donate.donate db donor body newId now) <> Donate.listed ->
  snd (Donate.donate db donor body newId now) = db.
Proof.
  unfold Donate.donate.
  destruct (decide (Donate.type body = "")); [reflexivity|].
  destruct (decide (Donate.description body = "")); [reflexivity|].
  destruct (Donate.value body) as [| |v]; [reflexivity|reflexivity|].
  cbn zeta. destruct (Donate.validate _ _); [|reflexivity].
  destruct (donations db !! newId); [reflexivity|].
  intros H. contradiction.
Qed.

Lemma myDonations_insert db newId d donor f :
  donations db !! newId = None ->
  length (Donor.myDonations (set_users f (set_donations (insert newId d) db)) donor)
  = (length (Donor.myDonations db donor)
     + (if bool_decide (Donation.donor d = donor) then 1 else 0))%nat.
Proof.
  intros Hn. unfold Donor.myDonations. cbn [set_users set_donations donations].
  rewrite (Permutation_length
             (filter_perm _ _ _
                (Permutation_map snd (map_to_list_insert (donations db) newId d Hn)))).
  cbn [map snd List.filter]. destruct (bool_decide _); cbn [length]; lia.
Qed.


(** X12.  POST /donor/donate, when it succeeds, stores one donation under the new
    id: of the donor, available, without recipient, expiring thirty days
    later, of the posted type.  The donor's count of donations on the
    dashboard and the stored totalDonations both grow by one, any student
    can claim the donation at any later time when its type is one a request
    can have, and the other donations, the requests and the payments are as
    before. *)
Theorem donation_listed_then_claimable db donor body newId now :
  fst (Donate.donate db donor body newId now) = Donate.listed ->
  let db' := snd (Donate.donate db donor body newId now) in
  (exists d,
      donations db' !! newId = Some d
      /\ Donation.donor d = donor
      /\ Donation.status d = Donation.available
      /\ Donation.recipient d = None
      /\ Donation.expiresAt d = now + 2592000000
      /\ Donation.type d = Donate.type body)
  /\ Donor.totalDonations (Donor.stats db' donor)
     = S (Donor.totalDonations (Donor.stats db donor))
  /\ (forall u, users db !! donor = Some u ->
        (fun w => User.totalDonations (User.donorInfo w)) <$> users db' !! donor
        = Some (User.totalDonations (User.donorInfo u) + 1))
  /\ (forall student t,
        Donate.type body ∈ Request.type_enum ->
        fst (Claim.claim_donation db' newId student t) = Claim.claimed_ok)
  /\ (forall j, j <> newId -> donations db' !! j = donations db !! j)
  /\ requests db' = requests db /\ payments db' = payments db.
Proof.
  intros Hok db'. destruct (donate_listed _ _ _ _ _ Hok) as (v & Hv & Hn & Hty & Hdb).
  unfold db'. rewrite Hdb. cbn [set_users set_donations donations users requests payments].
  split; [|split; [|split; [|split; [|split; [|split]]]]].
  - eexists. rewrite lookup_insert_eq. split; [reflexivity|]. repeat split.
  - unfold Donor.stats. cbn [Donor.totalDonations].
    rewrite (myDonations_insert db newId _ donor _ Hn).
    cbn [Donate.new_donation Donation.donor].
    rewrite bool_decide_eq_true_2 by reflexivity. lia.
  - intros u Hu. rewrite lookup_alter_eq. cbn [set_donations users]. rewrite Hu. reflexivity.
  - intros student t Hreq.
    apply (claim_answer _ newId student t
             (Donate.new_donation donor (Donate.type body)
                (Donate.description body) v now)).
    + cbn [set_users set_donations donations]. apply lookup_insert_eq.
    + reflexivity.
    + exact Hreq.
  - intros j Hne. apply lookup_insert_ne. congruence.
  - reflexivity.
  - reflexivity.
Qed.

Lemma donation_listed_then_claimable_witness :
  fst (Donate.donate (db_of_users {[ 7%nat := donor7 ]}) 7 laptop_offered 1 100)
  = Donate.listed
  /\ Donor.totalDonations
       (Donor.stats
          (snd (Donate.donate (db_of_users {[ 7%nat := donor7 ]}) 7 laptop_offered 1 100))
          7)
     = S (Donor.totalDonations (Donor.stats (db_of_users {[ 7%nat := donor7 ]}) 7)).
Proof.
  split; [reflexivity|].
  exact (proj1 (proj2 (donation_listed_then_claimable
                         (db_of_users {[ 7%nat := donor7 ]}) 7 laptop_offered 1 100
                         eq_refl))).
Defined.


(** X13.  An active donor with at least four donations who lists one more is a
    regular donor after the next visit of the dashboard. *)
Theorem fifth_donation_makes_regular db donor body newId t1 t2 u :
  users db !! donor = Some u ->
  User.isActive u = true -> User.role u = User.donor ->
  (4 <= Donor.totalDonations (Donor.stats db donor))%nat ->
  fst (Donate.donate db donor body newId t1) = Donate.listed ->
  Users.regular
    (users (snd (Donor.dashboard (snd (Donate.donate db donor body newId t1)) donor t2)))
    donor.
Proof.
  intros Hu Ha Hr H4 Hok.
  destruct (donate_listed _ _ _ _ _ Hok) as (v & Hv & Hn & Hty & Hdb).
  rewrite Hdb.
  set (db' := set_users (alter Donor.count_donation donor)
                (set_donations
                   (insert newId
                      (Donate.new_donation donor (Donate.type body)
                         (Donate.description body) v t1)) db)).
  assert (Hu' : users db' !! donor = Some (Donor.count_donation u)).
  { unfold db'. cbn [set_users users]. rewrite lookup_alter_eq.
    cbn [set_donations users]. rewrite Hu. reflexivity. }
  assert (Hq : Donor.qualifies (Donor.stats db' donor) = true).
  { apply qualifies_iff. left. unfold db', Donor.stats. cbn [Donor.totalDonations].
    rewrite (myDonations_insert db newId _ donor _ Hn).
    cbn [Donate.new_donation Donation.donor].
    rewrite bool_decide_eq_true_2 by reflexivity.
    unfold Donor.stats in H4. cbn [Donor.totalDonations] in H4. lia. }
  rewrite (dashboard_eq db' donor t2 (Donor.count_donation u) Hu' Ha Hr), Hq.
  cbn [snd set_users users].
  exists (Donor.mark_regular (Auth.touch t2 (Donor.count_donation u))).
  rewrite !lookup_alter_eq, Hu'. split; reflexivity.
Qed.

Lemma fifth_donation_makes_regular_witness :
  (4 <= Donor.totalDonations (Donor.stats db_of_four_donations 7))%nat
  /\ fst (Donate.donate db_of_four_donations 7 laptop_offered 5 100) = Donate.listed
  /\ Users.regular
       (users (snd (Donor.dashboard
                      (snd (Donate.donate db_of_four_donations 7 laptop_offered 5 100))
                      7 200)))
       7.
Proof.
  assert (H4 : (4 <= Donor.totalDonations (Donor.stats db_of_four_donations 7))%nat)
    by (vm_compute; lia).
  split; [exact H4|]. split; [reflexivity|].
  exact (fifth_donation_makes_regular db_of_four_donations 7 laptop_offered 5 100 200
           donor7 eq_refl eq_refl eq_refl H4 eq_refl).
Defined.

(** ** Payments and the regular-donor flag *)

(** X16.  POST /admin/process-payment changes at most the payment it names:
    donations, requests, users and the other payments are as before, the
    payment keeps its donor, amount and creation time, an unknown payment is
    answered as not found, and any answer other than the two success answers
    leaves the database as it was. *)
Theorem process_payment_touches_one_payment db paymentId admin body now :
  let res := fst (ProcessPayment.process_payment db paymentId admin body now) in
  let db' := snd (ProcessPayment.process_payment db paymentId admin body now) in
  donations db' = donations db /\ requests db' = requests db /\ users db' = users db
  /\ (forall j, j <> paymentId -> payments db' !! j = payments db !! j)
  /\ (forall p, payments db !! paymentId = Some p ->
        exists p', payments db' !! paymentId = Some p'
                   /\ Payment.donor p' = Payment.donor p
                   /\ Payment.amount p' = Payment.amount p
                   /\ Payment.createdAt p' = Payment.createdAt p)
  /\ (payments db !! paymentId = None ->
      res = ProcessPayment.not_found /\ db' = db)
  /\ (res <> ProcessPayment.approved_ok -> res <> ProcessPayment.rejected_ok ->
      db' = db).
Proof.
  cbn zeta. unfold ProcessPayment.process_payment.
  destruct (payments db !! paymentId) as [p|] eqn:Hp.
  2:{ repeat split; try reflexivity. intros p0 H0. discriminate. }
  assert (Hsave : forall p',
             Payment.donor p' = Payment.donor p ->
             Payment.amount p' = Payment.amount p ->
             Payment.createdAt p' = Payment.createdAt p ->
             forall res,
               (res = ProcessPayment.approved_ok \/ res = ProcessPayment.rejected_ok) ->
               let out := (res, ProcessPayment.save paymentId p' db) in
               donations (snd out) = donations db /\ requests (snd out) = requests db
               /\ users (snd out) = users db
               /\ (forall j, j <> paymentId ->
                             payments (snd out) !! j = payments db !! j)
               /\ (forall p0, Some p = Some p0 ->
                     exists p'', payments (snd out) !! paymentId = Some p''
                                 /\ Payment.donor p'' = Payment.donor p0
                                 /\ Payment.amount p'' = Payment.amount p0
                                 /\ Payment.createdAt p'' = Payment.createdAt p0)
               /\ (Some p = None -> fst out = ProcessPayment.not_found /\ snd out = db)
               /\ (fst out <> ProcessPayment.approved_ok ->
                   fst out <> ProcessPayment.rejected_ok -> snd out = db)).
  { intros p' H1 H2 H3 res Hres. cbn [fst snd ProcessPayment.save set_payments
      donations requests users payments].
    split; [reflexivity|]. split; [reflexivity|]. split; [reflexivity|].
    split; [intros j Hne; apply lookup_insert_ne; congruence|].
    split; [intros p0 [= <-]; exists p'; rewrite lookup_insert_eq; repeat split; assumption|].
    split; [discriminate|].
    intros Ha Hr. destruct Hres; contradiction. }
  assert (Hsame : forall res,
             res <> ProcessPayment.not_found \/ True ->
             let out := (res, db) in
             donations (snd out) = donations db /\ requests (snd out) = requests db
             /\ users (snd out) = users db
             /\ (forall j, j <> paymentId ->
                           payments (snd out) !! j = payments db !! j)
             /\ (forall p0, Some p = Some p0 ->
                   exists p'', payments (snd out) !! paymentId = Some p''
                               /\ Payment.donor p'' = Payment.donor p0
                               /\ Payment.amount p'' = Payment.amount p0
                               /\ Payment.createdAt p'' = Payment.createdAt p0)
             /\ (Some p = None -> fst out = ProcessPayment.not_found /\ snd out = db)
             /\ (fst out <> ProcessPayment.approved_ok ->
                 fst out <> ProcessPayment.rejected_ok -> snd out = db)).
  { intros res _. cbn [fst snd]. repeat split; try reflexivity; try discriminate.
    intros p0 [= <-]. exists p. repeat split. exact Hp. }
  destruct (decide (ProcessPayment.action body = "approve")).
  - destruct (decide (ProcessPayment.distributionMethod body = "full")),
      (ProcessPayment.recipient body);
      try (apply Hsave; [reflexivity|reflexivity|reflexivity|left; reflexivity]);
      destruct (decide (ProcessPayment.distributionMethod body = "split"));
      try (apply Hsave; [reflexivity|reflexivity|reflexivity|left; reflexivity]);
      destruct (ProcessPayment.splitAmong body);
      try (apply Hsave; [reflexivity|reflexivity|reflexivity|left; reflexivity]);
      apply Hsame; right; exact I.
  - destruct (decide (ProcessPayment.action body = "reject")).
    + apply Hsave; [reflexivity|reflexivity|reflexivity|right; reflexivity].
    + apply Hsame. right. exact I.
Qed.




Lemma sum_from_eq (l : list Payment.t) (a b : Q) :
  (a == b)%Q ->
  (fold_left (fun sum p => sum + Payment.amount p) l a
   == fold_left (fun sum p => sum + Payment.amount p) l b)%Q.
Proof.
  revert a b. induction l as [|p l IH]; intros a b Hab; cbn [fold_left].
  - exact Hab.
  - apply IH. rewrite Hab. reflexivity.
Qed.

Lemma sum_perm (l l' : list Payment.t) :
  Permutation l l' ->
  forall a,
    (fold_left (fun sum p => sum + Payment.amount p) l a
     == fold_left (fun sum p => sum + Payment.amount p) l' a)%Q.
Proof.
  induction 1 as [|x l l' _ IH|x y l|l1 l2 l3 _ IH1 _ IH2]; intros a; cbn [fold_left].
  - reflexivity.
  - apply IH.
  - apply sum_from_eq. ring.
  - rewrite IH1. apply IH2.
Qed.

Lemma myPayments_replace db paymentId p p' donor :
  payments db !! paymentId = Some p ->
  Payment.donor p' = Payment.donor p ->
  Payment.amount p' = Payment.amount p ->
  (Donor.totalPayments (Donor.stats (ProcessPayment.save paymentId p' db) donor)
   == Donor.totalPayments (Donor.stats db donor))%Q.
Proof.
  intros Hp Hd Ha. unfold Donor.stats. cbn [Donor.totalPayments].
  unfold Donor.myPayments, ProcessPayment.save. cbn [set_payments payments].
  set (f := fun q : Payment.t => bool_decide (Payment.donor q = donor)).
  set (rest := map snd (map_to_list (delete paymentId (payments db)))).
  assert (H1 : Permutation (map snd (map_to_list (<[paymentId := p']> (payments db))))
                 (p' :: rest)).
  { rewrite <- insert_delete_eq.
    apply (Permutation_map snd
             (map_to_list_insert (delete paymentId (payments db)) paymentId p'
                (lookup_delete_eq _ _))). }
  assert (H2 : Permutation (map snd (map_to_list (payments db))) (p :: rest)).
  { rewrite <- (insert_delete_id (payments db) paymentId p Hp) at 1.
    apply (Permutation_map snd
             (map_to_list_insert (delete paymentId (payments db)) paymentId p
                (lookup_delete_eq _ _))). }
  rewrite (sum_perm _ _ (filter_perm f _ _ H1)).
  rewrite (sum_perm _ _ (filter_perm f _ _ H2)).
  cbn [List.filter].
  assert (Hf : f p' = f p) by (unfold f; rewrite Hd; reflexivity).
  rewrite Hf. destruct (f p); [|reflexivity].
  cbn [fold_left]. rewrite Ha. reflexivity.
Qed.


(** X15.  Processing a payment, approved or rejected, in full or split, changes
    neither the sum of payments nor the number of donations on any donor's
    dashboard, so it cannot change who qualifies as a regular donor: the
    dashboard counts payments whatever their status. *)
Theorem payments_count_whatever_their_status db paymentId admin body now donor :
  let db' := snd (ProcessPayment.process_payment db paymentId admin body now) in
  (Donor.totalPayments (Donor.stats db' donor)
   == Donor.totalPayments (Donor.stats db donor))%Q
  /\ Donor.totalDonations (Donor.stats db' donor)
     = Donor.totalDonations (Donor.stats db donor)
  /\ Donor.qualifies (Donor.stats db' donor) = Donor.qualifies (Donor.stats db donor).
Proof.
  cbn zeta.
  assert (H : (Donor.totalPayments
                 (Donor.stats
                    (snd (ProcessPayment.process_payment db paymentId admin body now))
                    donor)
               == Donor.totalPayments (Donor.stats db donor))%Q
              /\ donations (snd (ProcessPayment.process_payment db paymentId admin
                                   body now))
                 = donations db).
  { unfold ProcessPayment.process_payment.
    destruct (payments db !! paymentId) as [p|] eqn:Hp; [|split; reflexivity].
    destruct (decide (ProcessPayment.action body = "approve")).
    - destruct (decide (ProcessPayment.distributionMethod body = "full")),
        (ProcessPayment.recipient body);
        try (split; [apply (myPayments_replace db paymentId p); [exact Hp|reflexivity
                                                               |reflexivity]
                    |reflexivity]);
        destruct (decide (ProcessPayment.distributionMethod body = "split"));
        try (split; [apply (myPayments_replace db paymentId p); [exact Hp|reflexivity
                                                               |reflexivity]
                    |reflexivity]);
        destruct (ProcessPayment.splitAmong body);
        try (split; [apply (myPayments_replace db paymentId p); [exact Hp|reflexivity
                                                               |reflexivity]
                    |reflexivity]);
        split; reflexivity.
    - destruct (decide (ProcessPayment.action body = "reject")).
      + split; [apply (myPayments_replace db paymentId p); [exact Hp|reflexivity
                                                           |reflexivity]
               |reflexivity].
      + split; reflexivity. }
  destruct H as [Hsum Hdon].
  assert (Hcount : Donor.totalDonations
                     (Donor.stats
                        (snd (ProcessPayment.process_payment db paymentId admin body now))
                        donor)
                   = Donor.totalDonations (Donor.stats db donor)).
  { unfold Donor.stats. cbn [Donor.totalDonations]. unfold Donor.myDonations.
    rewrite Hdon. reflexivity. }
  split; [exact Hsum|]. split; [exact Hcount|].
  unfold Donor.qualifies. rewrite Hcount. f_equal.
  apply eq_true_iff_eq. rewrite !Qle_bool_iff, Hsum. reflexivity.
Qed.

(** ** Invariants of interleaved claims *)

(** One step of a handler for another donation leaves donation [id] alone;
    one step of a handler held back on [id] as well. *)
Lemma step_keeps_refused_donation id d donationId student now db pc :
  donations db !! id = Some d ->
  Donation.status d <> Donation.available ->
  (donationId = id ->
   pc = Claim.FindDonation \/ pc = Claim.Done Claim.unavailable) ->
  donations (fst (Claim.step donationId student now db pc)) !! id = Some d
  /\ (donationId = id ->
      snd (Claim.step donationId student now db pc) = Claim.Done Claim.unavailable).
Proof.
  intros Hd Hs Hheld. destruct (decide (donationId = id)) as [->|Hne].
  - destruct (Hheld eq_refl) as [-> | ->]; cbn [Claim.step].
    + rewrite Hd. destruct (decide _) as [Ha|_]; [contradiction|].
      split; [exact Hd|reflexivity].
    + split; [exact Hd|reflexivity].
  - split; [|intros; contradiction].
    destruct pc as [|loc|loc|loc i r|loc r|res]; cbn [Claim.step].
    + destruct (donations db !! donationId) as [d0|]; [|exact Hd].
      destruct (decide _); exact Hd.
    + destruct (donations db !! donationId) as [d0|]; [|exact Hd].
      cbn [fst set_donations donations]. rewrite lookup_alter_ne by exact Hne. exact Hd.
    + destruct (list_find _ _) as [[i r]|]; [exact Hd|].
      cbn zeta. destruct (Request.validate _); exact Hd.
    + destruct (requests db !! i); exact Hd.
    + exact Hd.
    + exact Hd.
Qed.

Lemma resume_keeps_refused_donation id d i now db tasks :
  donations db !! id = Some d ->
  Donation.status d <> Donation.available ->
  Forall (held_back id) tasks ->
  donations (fst (Claim.resume i now (db, tasks))) !! id = Some d
  /\ Forall (held_back id) (snd (Claim.resume i now (db, tasks))).
Proof.
  intros Hd Hs Hall. cbn [Claim.resume].
  destruct (tasks !! i) as [t|] eqn:Ht; [|split; assumption].
  assert (Hheld : held_back id t).
  { rewrite Forall_forall in Hall. apply Hall. eapply list_elem_of_lookup_2, Ht. }
  pose proof (step_keeps_refused_donation id d (Claim.donationId t) (Claim.claimant t)
                now db (Claim.pc t) Hd Hs Hheld) as [H1 H2].
  destruct (Claim.step _ _ _ _ _) as [db' pc'] eqn:Hstep. cbn [fst snd] in *.
  split; [exact H1|].
  apply Forall_insert; [exact Hall|].
  unfold held_back. cbn [Claim.donationId Claim.pc]. intros Hid. right. apply H2, Hid.
Qed.


(** X17.  A donation that is not available stays exactly as stored under every
    interleaving of claim handlers that have not yet read it, however many
    they are and whatever donations they ask for; every handler that asked
    for it and has answered was refused. *)
Theorem reserved_donation_survives_every_schedule sched id d db tasks :
  donations db !! id = Some d ->
  Donation.status d <> Donation.available ->
  Forall (held_back id) tasks ->
  let s := Claim.run_schedule sched (db, tasks) in
  donations (fst s) !! id = Some d
  /\ (forall t res,
        t ∈ snd s -> Claim.donationId t = id -> Claim.answered t = Some res ->
        res = Claim.unavailable)
  /\ length (snd s) = length tasks.
Proof.
  intros Hd Hs Hall. cbn zeta. unfold Claim.run_schedule.
  revert db tasks Hd Hall.
  induction sched as [|[i now] sched IH]; intros db tasks Hd Hall; cbn [fold_left fst snd].
  - split; [exact Hd|]. split; [|reflexivity].
    intros t res Ht Hid Hans. rewrite Forall_forall in Hall.
    destruct (Hall t Ht Hid) as [Hpc|Hpc]; unfold Claim.answered in Hans;
      rewrite Hpc in Hans; [discriminate|].
    injection Hans as <-. reflexivity.
  - destruct (resume_keeps_refused_donation id d i now db tasks Hd Hs Hall) as [H1 H2].
    assert (Hlen : length (snd (Claim.resume i now (db, tasks))) = length tasks).
    { cbn [Claim.resume]. destruct (tasks !! i); [|reflexivity].
      destruct (Claim.step _ _ _ _ _). cbn [snd]. apply length_insert. }
    destruct (Claim.resume i now (db, tasks)) as [db' tasks'] eqn:Hres.
    cbn [fst snd] in *.
    destruct (IH db' tasks' H1 H2) as (Ha & Hb & Hc).
    split; [exact Ha|]. split; [exact Hb|]. rewrite Hc. exact Hlen.
Qed.

Lemma fresh_tasks_held_back id (claims : list (ObjectId * ObjectId)) :
  Forall (held_back id) (map (fun c => Claim.start (fst c) (snd c)) claims).
Proof.
  apply Forall_forall. intros t Ht. apply list_elem_of_In, in_map_iff in Ht.
  destruct Ht as (c & <- & _). intros _. left. reflexivity.
Qed.

Lemma reserved_donation_survives_every_schedule_witness :
  let db1 := snd (Claim.claim_donation (db_of_donation (offer "laptop" 5000)) 1 10 100) in
  Donation.recipient <$> donations db1 !! 1%nat = Some (Some 10%nat)
  /\ Donation.recipient
       <$> donations (fst (Claim.run_schedule race
                             (db1, [Claim.start 1 11; Claim.start 1 12]))) !! 1%nat
     = Some (Some 10%nat).
Proof.
  cbn zeta. split; [reflexivity|].
  rewrite (proj1 (reserved_donation_survives_every_schedule race 1
                    (Donation.claim 10 100 (offer "laptop" 5000))
                    (snd (Claim.claim_donation (db_of_donation (offer "laptop" 5000))
                            1 10 100))
                    [Claim.start 1 11; Claim.start 1 12]
                    eq_refl
                    ltac:(discriminate)
                    (fresh_tasks_held_back 1 [(1%nat, 11%nat); (1%nat, 12%nat)]))).
  reflexivity.
Defined.

Lemma same_offer_refl d : same_offer d d.
Proof. repeat split. intros H. exact H. Qed.

Lemma same_offer_trans d1 d2 d3 :
  same_offer d1 d2 -> same_offer d2 d3 -> same_offer d1 d3.
Proof.
  intros (A1 & A2 & A3 & A4 & A5 & A6 & A7) (B1 & B2 & B3 & B4 & B5 & B6 & B7).
  repeat split; try congruence. intros H. apply B7, A7, H.
Qed.

Lemma step_same_offer id d donationId student now db pc :
  donations db !! id = Some d ->
  (forall loc, pc = Claim.SaveDonation loc ->
               Donation.status loc = Donation.reserved) ->
  (exists d', donations (fst (Claim.step donationId student now db pc)) !! id = Some d'
              /\ same_offer d d')
  /\ (forall loc, snd (Claim.step donationId student now db pc) = Claim.SaveDonation loc ->
                  Donation.status loc = Donation.reserved).
Proof.
  intros Hd Hloc.
  destruct pc as [|loc|loc|loc i r|loc r|res]; cbn [Claim.step].
  - destruct (donations db !! donationId) as [d0|];
      [|split; [exists d; split; [exact Hd|apply same_offer_refl]|discriminate]].
    destruct (decide _); cbn [fst snd];
      (split; [exists d; split; [exact Hd|apply same_offer_refl]|]).
    + intros loc [= <-]. reflexivity.
    + discriminate.
  - destruct (donations db !! donationId) as [d0|] eqn:Hd0;
      [|split; [exists d; split; [exact Hd|apply same_offer_refl]|discriminate]].
    cbn [fst snd set_donations donations]. split; [|discriminate].
    destruct (decide (donationId = id)) as [->|Hne].
    + exists (Donation.write_claim loc d). rewrite lookup_alter_eq, Hd.
      split; [reflexivity|]. repeat split. cbn. intros _.
      rewrite (Hloc loc eq_refl). discriminate.
    + exists d. rewrite lookup_alter_ne by exact Hne.
      split; [exact Hd|apply same_offer_refl].
  - destruct (list_find _ _) as [[i r]|]; cbn [fst snd];
      [split; [exists d; split; [exact Hd|apply same_offer_refl]|discriminate]|].
    cbn zeta. destruct (Request.validate _);
      (split; [exists d; split; [exact Hd|apply same_offer_refl]|discriminate]).
  - destruct (requests db !! i);
      (split; [exists d; split; [exact Hd|apply same_offer_refl]|discriminate]).
  - split; [exists d; split; [exact Hd|apply same_offer_refl]|discriminate].
  - split; [exists d; split; [exact Hd|apply same_offer_refl]|discriminate].
Qed.


(** X18.  Under every interleaving of claim handlers the donation stays in the
    collection and keeps its donor, type, description, value, expiry and
    creation time, and a donation that is no longer available never becomes
    available again. *)
Theorem no_schedule_alters_an_offer sched id d db tasks :
  donations db !! id = Some d ->
  Forall saves_reserved tasks ->
  exists d',
    donations (fst (Claim.run_schedule sched (db, tasks))) !! id = Some d'
    /\ same_offer d d'.
Proof.
  unfold Claim.run_schedule. revert d db tasks.
  induction sched as [|[i now] sched IH]; intros d db tasks Hd Hall; cbn [fold_left fst snd].
  - exists d. split; [exact Hd|apply same_offer_refl].
  - assert (Hstep : exists d1,
               donations (fst (Claim.resume i now (db, tasks))) !! id = Some d1
               /\ same_offer d d1
               /\ Forall saves_reserved (snd (Claim.resume i now (db, tasks)))).
    { cbn [Claim.resume]. destruct (tasks !! i) as [t|] eqn:Ht.
      - assert (Hok : saves_reserved t).
        { rewrite Forall_forall in Hall. apply Hall. eapply list_elem_of_lookup_2, Ht. }
        destruct (step_same_offer id d (Claim.donationId t) (Claim.claimant t) now db
                    (Claim.pc t) Hd) as [(d1 & H1 & H2) H3].
        { intros loc Hpc. unfold saves_reserved in Hok. rewrite Hpc in Hok. exact Hok. }
        destruct (Claim.step _ _ _ _ _) as [db' pc'] eqn:Hs. cbn [fst snd] in *.
        exists d1. split; [exact H1|]. split; [exact H2|].
        apply Forall_insert; [exact Hall|].
        unfold saves_reserved. cbn [Claim.pc].
        destruct pc'; try exact I. apply H3. reflexivity.
      - exists d. split; [exact Hd|]. split; [apply same_offer_refl|exact Hall]. }
    destruct Hstep as (d1 & H1 & H2 & H3).
    destruct (Claim.resume i now (db, tasks)) as [db' tasks'].
    cbn [fst snd] in *.
    destruct (IH d1 db' tasks' H1 H3) as (d2 & H4 & H5).
    exists d2. split; [exact H4|]. eapply same_offer_trans; eassumption.
Qed.

Lemma fresh_tasks_save_reserved (claims : list (ObjectId * ObjectId)) :
  Forall saves_reserved (map (fun c => Claim.start (fst c) (snd c)) claims).
Proof.
  apply Forall_forall. intros t Ht. apply list_elem_of_In, in_map_iff in Ht.
  destruct Ht as (c & <- & _). exact I.
Qed.

Lemma no_schedule_alters_an_offer_witness :
  donations (db_of_donation (offer "laptop" 5000)) !! 1%nat = Some (offer "laptop" 5000)
  /\ exists d',
       donations (fst (Claim.run_schedule race
                         (db_of_donation (offer "laptop" 5000),
                          [Claim.start 1 10; Claim.start 1 11]))) !! 1%nat = Some d'
       /\ same_offer (offer "laptop" 5000) d'.
Proof.
  split; [reflexivity|].
  exact (no_schedule_alters_an_offer race 1 (offer "laptop" 5000)
           (db_of_donation (offer "laptop" 5000))
           [Claim.start 1 10; Claim.start 1 11] eq_refl
           (fresh_tasks_save_reserved [(1%nat, 10%nat); (1%nat, 11%nat)])).
Defined.

(** ** The views of GET /donor/requests *)

Lemma query_true ty ur r :
  Listing.query ty ur r = true <->
  Request.status r = Request.pending
  /\ (forall t, Listing.given ty = Some t -> Request.type r = t)
  /\ (forall u, Listing.given ur = Some u ->
                Request.urgency_string (Request.urgencyLevel r) = u).
Proof.
  unfold Listing.query. rewrite !andb_true_iff, bool_decide_eq_true. split.
  - intros [[Hs Ht] Hu]. split; [exact Hs|]. split.
    + intros t Hg. rewrite Hg in Ht. apply bool_decide_eq_true in Ht. exact Ht.
    + intros u Hg. rewrite Hg in Hu. apply bool_decide_eq_true in Hu. exact Hu.
  - intros (Hs & Ht & Hu). split; [split; [exact Hs|]|].
    + destruct (Listing.given ty) as [t|]; [|reflexivity].
      apply bool_decide_eq_true, Ht. reflexivity.
    + destruct (Listing.given ur) as [u|]; [|reflexivity].
      apply bool_decide_eq_true, Hu. reflexivity.
Qed.

Lemma donor_view_members db ty ur sort r :
  r ∈ Listing.donor_requests db ty ur sort <->
  r ∈ requests db
  /\ Request.status r = Request.pending
  /\ (forall t, Listing.given ty = Some t -> Request.type r = t)
  /\ (forall u, Listing.given ur = Some u ->
                Request.urgency_string (Request.urgencyLevel r) = u).
Proof.
  unfold Listing.donor_requests.
  rewrite (sort_perm (Listing.sortOptions sort) _).
  rewrite list_elem_of_In, filter_In, <- list_elem_of_In, query_true. reflexivity.
Qed.


(** X19.  GET /donor/requests shows, whatever the sort parameter, exactly the
    pending requests that match the type and urgency filters that were given
    (an empty filter counts as not given), each as often as it is stored, in
    the order of the chosen sort option. *)
Theorem donor_requests_shows_matching_pending db ty ur sort :
  Permutation (Listing.donor_requests db ty ur sort)
              (List.filter (Listing.query ty ur) (requests db))
  /\ (forall r,
        r ∈ Listing.donor_requests db ty ur sort <->
        r ∈ requests db
        /\ Request.status r = Request.pending
        /\ (forall t, Listing.given ty = Some t -> Request.type r = t)
        /\ (forall u, Listing.given ur = Some u ->
                      Request.urgency_string (Request.urgencyLevel r) = u))
  /\ Listing.ordered (Listing.sortOptions sort) (Listing.donor_requests db ty ur sort).
Proof.
  split; [apply sort_perm|]. split; [|apply sort_ordered].
  intros r. apply donor_view_members.
Qed.

Lemma before_when_reverse_refused o l (i j : nat) a b :
  Listing.ordered o l ->
  l !! i = Some a -> l !! j = Some b ->
  Listing.precedes o b a = false ->
  (i < j)%nat.
Proof.
  intros Hl Hi Hj Hba.
  destruct (Nat.lt_trichotomy i j) as [H|[H|H]]; [exact H| |].
  - subst j. rewrite Hi in Hj. injection Hj as ->.
    assert (Hrefl : Listing.precedes o b b = true).
    { unfold Listing.precedes. destruct (orders_compare_by o) as (Hs & _).
      pose proof (Hs b b) as Hbb. destruct (Listing.compare_by o b b); try discriminate;
        reflexivity. }
    congruence.
  - pose proof (ordered_lookup _ _ _ _ _ _ Hl Hj Hi H) as Hp. congruence.
Qed.


(** X20.  In the view sorted by amount a request of a larger amount comes before
    one of a smaller amount, and of two requests of the same amount the one
    created earlier comes first. *)
Theorem amount_view_larger_first db ty ur (i j : nat) a b :
  let out := Listing.donor_requests db ty ur (Some "amount") in
  out !! i = Some a -> out !! j = Some b ->
  (Request.amount b < Request.amount a)%Q
  \/ ((Request.amount a == Request.amount b)%Q
      /\ Request.createdAt a < Request.createdAt b) ->
  (i < j)%nat.
Proof.
  intros out Hi Hj Hab.
  apply (before_when_reverse_refused Listing.by_amount out i j a b);
    [apply sort_ordered|exact Hi|exact Hj|].
  unfold Listing.precedes, Listing.by_amount.
  cbn [Listing.compare_by Listing.compare_path Listing.directed].
  destruct Hab as [Hlt|[Heq Hc]].
  - replace (Qcompare (Request.amount b) (Request.amount a)) with Lt
      by (symmetry; apply Qlt_alt, Hlt).
    reflexivity.
  - replace (Qcompare (Request.amount b) (Request.amount a)) with Eq
      by (symmetry; apply Qeq_alt, Qeq_sym, Heq).
    cbn [CompOpp].
    apply Z.compare_lt_iff in Hc. rewrite Z.compare_antisym, Hc. reflexivity.
Qed.

Lemma amount_view_larger_first_witness :
  Listing.donor_requests
    (db_of_requests [Student.new_request 10 "books" "Textbooks" Request.low 40%Q 5;
                     Student.new_request 11 "fees" "Tuition" Request.low 1500%Q 9])
    None None (Some "amount") !! 0%nat
  = Some (Student.new_request 11 "fees" "Tuition" Request.low 1500%Q 9)
  /\ (0 < 1)%nat.
Proof.
  split; [reflexivity|].
  apply (amount_view_larger_first
           (db_of_requests [Student.new_request 10 "books" "Textbooks" Request.low 40%Q 5;
                            Student.new_request 11 "fees" "Tuition" Request.low 1500%Q 9])
           None None 0 1
           (Student.new_request 11 "fees" "Tuition" Request.low 1500%Q 9)
           (Student.new_request 10 "books" "Textbooks" Request.low 40%Q 5)
           eq_refl eq_refl).
  left. reflexivity.
Defined.


(** X21.  With any sort parameter other than urgency and amount (or none) the
    view lists a request created earlier before one created later. *)
Theorem default_view_first_come_first db ty ur sort (i j : nat) a b :
  sort <> Some "urgency" -> sort <> Some "amount" ->
  let out := Listing.donor_requests db ty ur sort in
  out !! i = Some a -> out !! j = Some b ->
  Request.createdAt a < Request.createdAt b ->
  (i < j)%nat.
Proof.
  intros Hu Ha out Hi Hj Hc.
  assert (Ho : Listing.sortOptions sort = Listing.by_created).
  { unfold Listing.sortOptions.
    destruct (decide (sort = Some "urgency")); [contradiction|].
    destruct (decide (sort = Some "amount")); [contradiction|]. reflexivity. }
  apply (before_when_reverse_refused Listing.by_created out i j a b);
    [|exact Hi|exact Hj|].
  - unfold out, Listing.donor_requests. rewrite Ho. apply sort_ordered.
  - unfold Listing.precedes, Listing.by_created.
    cbn [Listing.compare_by Listing.compare_path Listing.directed].
    apply Z.compare_lt_iff in Hc. rewrite Z.compare_antisym, Hc. reflexivity.
Qed.

Lemma default_view_first_come_first_witness :
  Some "newest" <> Some "urgency" /\ Some "newest" <> Some "amount"
  /\ (0 < 1)%nat.
Proof.
  split; [discriminate|]. split; [discriminate|].
  apply (default_view_first_come_first
           (db_of_requests [req 1 Request.low 7; req 2 Request.critical 3])
           None None (Some "newest") 0 1
           (req 2 Request.critical 3) (req 1 Request.low 7));
    [discriminate|discriminate|reflexivity|reflexivity|reflexivity].
Defined.

Lemma urgency_string_inj u v :
  Request.urgency_string u = Request.urgency_string v -> u = v.
Proof. destruct u, v; cbn; intros H; try discriminate; reflexivity. Qed.


(** X22.  When an urgency filter is given, the view sorted by urgency shows
    requests of one urgency level only, in order of creation. *)
Theorem urgency_view_of_one_level_is_by_creation db ty ur (i j : nat) a b :
  Listing.given ur <> None ->
  let out := Listing.donor_requests db ty ur (Some "urgency") in
  out !! i = Some a -> out !! j = Some b -> (i < j)%nat ->
  Request.urgencyLevel a = Request.urgencyLevel b
  /\ Request.createdAt a <= Request.createdAt b.
Proof.
  intros Hg out Hi Hj Hij.
  pose proof (donor_view_members db ty ur (Some "urgency")) as Hmem.
  destruct (Listing.given ur) as [u|] eqn:Hu; [|contradiction].
  assert (Hlev : forall r, r ∈ out ->
                   Request.urgency_string (Request.urgencyLevel r) = u).
  { intros r Hr. apply Hmem in Hr as (_ & _ & _ & H). apply H. reflexivity. }
  assert (Hab : Request.urgencyLevel a = Request.urgencyLevel b).
  { apply urgency_string_inj.
    rewrite (Hlev a (list_elem_of_lookup_2 _ _ _ Hi)),
      (Hlev b (list_elem_of_lookup_2 _ _ _ Hj)). reflexivity. }
  split; [exact Hab|].
  pose proof (ordered_lookup Listing.by_urgency out i j a b
                (sort_ordered _ _) Hi Hj Hij) as Hp.
  unfold Listing.precedes, Listing.by_urgency in Hp.
  cbn [Listing.compare_by Listing.compare_path Listing.directed] in Hp.
  rewrite Hab in Hp.
  replace (String.compare _ _) with Eq in Hp
    by (destruct (Request.urgencyLevel b); reflexivity).
  cbn [CompOpp] in Hp.
  destruct (Z.compare_spec (Request.createdAt a) (Request.createdAt b)) as [H|H|H];
    [lia|lia|discriminate].
Qed.

Lemma urgency_view_of_one_level_is_by_creation_witness :
  Listing.donor_requests
    (db_of_requests [req 10 Request.high 30; req 11 Request.low 10; req 12 Request.high 20])
    None (Some "high") (Some "urgency")
  = [req 12 Request.high 20; req 10 Request.high 30]
  /\ Request.createdAt (req 12 Request.high 20) <= Request.createdAt (req 10 Request.high 30).
Proof.
  split; [reflexivity|].
  refine (proj2 (urgency_view_of_one_level_is_by_creation
                   (db_of_requests [req 10 Request.high 30; req 11 Request.low 10;
                                    req 12 Request.high 20])
                   None (Some "high") 0 1
                   (req 12 Request.high 20) (req 10 Request.high 30)
                   _ eq_refl eq_refl _)).
  - discriminate.
  - lia.
Defined.

(** ** Paging through the users *)

Lemma ceiling_bounds (total limit : Z) :
  0 < limit ->
  let n := Qceiling (inject_Z total / inject_Z limit)%Q in
  total <= n * limit /\ (n - 1) * limit < total.
Proof.
  intros Hl n.
  assert (Hlq : (0 < inject_Z limit)%Q) by (rewrite <- (Zlt_Qlt 0); exact Hl).
  assert (Hne : ~ (inject_Z limit == 0)%Q).
  { intros H. rewrite H in Hlq. apply (Qlt_irrefl 0), Hlq. }
  assert (Hx : (inject_Z total / inject_Z limit * inject_Z limit == inject_Z total)%Q)
    by (rewrite Qmult_comm; apply Qmult_div_r, Hne).
  split.
  - pose proof (Qle_ceiling (inject_Z total / inject_Z limit)) as H. fold n in H.
    apply (Qmult_le_compat_r _ _ (inject_Z limit)) in H; [|apply Qlt_le_weak, Hlq].
    rewrite Hx, <- inject_Z_mult in H. rewrite Zle_Qle. exact H.
  - pose proof (Qceiling_lt (inject_Z total / inject_Z limit)) as H. fold n in H.
    apply (Qmult_lt_compat_r _ _ (inject_Z limit) Hlq) in H.
    rewrite Hx, <- inject_Z_mult in H. rewrite Zlt_Qlt. exact H.
Qed.

Lemma chunks_cover {A} (l : list A) (size : nat) (n : nat) :
  concat (map (fun k => take size (drop (k * size) l)) (seq 0 n)) = take (n * size) l.
Proof.
  induction n as [|n IH].
  - cbn. rewrite take_0. reflexivity.
  - rewrite seq_S, map_app, concat_app, IH. cbn [map concat Nat.add].
    rewrite app_nil_r, take_take_drop. f_equal. lia.
Qed.


(** X23.  AdminController.getUsers with a limit of at least one: page k holds the
    k-th block of limit users of the query's result, every page before the
    last is full, pages after totalPages are empty, totalPages is the
    ceiling of the number of users over the limit, and the pages 1 to
    totalPages, read one after the other, give every user of the result
    exactly once and in order. *)
Theorem getUsers_pages_partition sorted role (limit : Z) :
  1 <= limit ->
  let found := List.filter (AdminUsers.query role) sorted in
  let n := Qceiling (inject_Z (Z.of_nat (length found)) / inject_Z limit)%Q in
  let page k := AdminUsers.getUsers sorted role (Some k) (Some limit) in
  0 <= n
  /\ (forall k, 1 <= k ->
        exists us,
          page k = Some (AdminUsers.mkPage us k n)
          /\ Z.of_nat (length us) <= limit
          /\ (n < k -> us = [])
          /\ (k < n -> Z.of_nat (length us) = limit)
          /\ us = take (Z.to_nat limit) (drop (Z.to_nat ((k - 1) * limit)) found))
  /\ concat (map (fun k => match page (Z.of_nat k + 1) with
                           | Some p => AdminUsers.users p
                           | None => []
                           end)
                 (seq 0 (Z.to_nat n)))
     = found.
Proof.
  intros Hl found n page.
  destruct (ceiling_bounds (Z.of_nat (length found)) limit) as [Hup Hlow]; [lia|].
  fold n in Hup, Hlow.
  assert (Hn : 0 <= n) by nia.
  assert (Hpages : forall k, 1 <= k ->
             exists us,
               page k = Some (AdminUsers.mkPage us k n)
               /\ Z.of_nat (length us) <= limit
               /\ (n < k -> us = [])
               /\ (k < n -> Z.of_nat (length us) = limit)
               /\ us = take (Z.to_nat limit) (drop (Z.to_nat ((k - 1) * limit)) found)).
  { intros k Hk. unfold page, AdminUsers.getUsers, AdminUsers.parsed_or.
    destruct (decide (k = 0)) as [->|_]; [lia|].
    destruct (decide (limit = 0)) as [->|_]; [lia|].
    cbn zeta. unfold AdminUsers.cursor.
    assert (Hskip : 0 <= (k - 1) * limit) by nia.
    destruct ((k - 1) * limit <? 0) eqn:Hs; [apply Z.ltb_lt in Hs; lia|].
    destruct (limit =? 0) eqn:H0; [apply Z.eqb_eq in H0; lia|].
    rewrite (Z.abs_eq limit) by lia. fold found. fold n.
    eexists. split; [reflexivity|].
    split; [rewrite length_take; lia|].
    split; [|split; [|reflexivity]].
    + intros Hnk. rewrite drop_ge; [apply take_nil|]. nia.
    + intros Hkn. rewrite length_take, length_drop. nia. }
  split; [exact Hn|]. split; [exact Hpages|].
  transitivity (take (Z.to_nat n * Z.to_nat limit) found); [|apply take_ge; nia].
  rewrite <- chunks_cover. f_equal. apply map_ext. intros k.
  destruct (Hpages (Z.of_nat k + 1)) as (us & -> & _ & _ & _ & ->); [lia|].
  cbn [AdminUsers.users]. do 2 f_equal.
  replace (Z.of_nat k + 1 - 1) with (Z.of_nat k) by lia.
  rewrite Z2Nat.inj_mul, Nat2Z.id by lia. reflexivity.
Qed.

Lemma getUsers_pages_partition_witness :
  1 <= 2
  /\ AdminUsers.getUsers [donor7; student10; newcomer] None (Some 2) (Some 2)
     = Some (AdminUsers.mkPage [newcomer] 2 2).
Proof.
  split; [lia|].
  destruct (proj1 (proj2 (getUsers_pages_partition [donor7; student10; newcomer]
                            None 2 ltac:(lia))) 2 ltac:(lia))
    as (us & Hpage & _ & _ & _ & Hus).
  rewrite Hpage, Hus. reflexivity.
Defined.

(** The defaults and the refusals of the query parameters. *)
Example getUsers_defaults :
  AdminUsers.getUsers [donor7; student10] None None None
  = Some (AdminUsers.mkPage [donor7; student10] 1 1)
  /\ AdminUsers.getUsers [donor7; student10] (Some "student") (Some 0) (Some 0)
     = Some (AdminUsers.mkPage [student10] 1 1)
  /\ AdminUsers.getUsers [donor7; student10] None (Some (-1)) None = None.
Proof. split; [|split]; reflexivity. Qed.
